(** * The Conda example notebook of MLServer (docs/examples/conda/README.ipynb)

    The notebook is a list of cells.  Markdown cells are prose; code cells
    are run by an IPython kernel.  This development keeps

    - the text of the markdown cells and of the code cells that consist of
      IPython magics ([%%writefile], [!command]), line by line as the notebook
      stores it, together with the readers needed to talk about that text
      (shell words, YAML top-level keys, a flat JSON object, URL segments);
    - a state-and-exception monad for the kernel (namespace, log of the calls
      to external tools) into which the Python cells are translated statement
      by statement;
    - the properties of the walk-through proved over both. *)

From Stdlib Require Import Ascii.
From Stdlib Require QArith Qround.
From stdpp Require Import gmap strings list.

Set Warnings "-register-all".

(** ** Characters and strings *)

Definition dquote : ascii := "034"%char.
Definition backslash : ascii := "092"%char.

(** A one-character string; [q] is the double quote used to spell the
    notebook's own quoted text. *)
Definition str1 (c : ascii) : string := String c EmptyString.
Definition q : string := str1 dquote.

Definition is_blank (c : ascii) : bool := Ascii.eqb c " "%char || Ascii.eqb c "009"%char.

Fixpoint starts_with (p s : string) : bool :=
  match p, s with
  | EmptyString, _ => true
  | String a p', String b s' => Ascii.eqb a b && starts_with p' s'
  | String _ _, EmptyString => false
  end.

Fixpoint drop_chars (n : nat) (s : string) : string :=
  match n, s with
  | O, _ => s
  | S n', String _ s' => drop_chars n' s'
  | S _, EmptyString => EmptyString
  end.

(** [strip_prefix p s] is the rest of [s] after [p], when [s] starts with [p]. *)
Definition strip_prefix (p s : string) : option string :=
  if starts_with p s then Some (drop_chars (String.length p) s) else None.

Fixpoint lstrip (s : string) : string :=
  match s with
  | String a s' => if is_blank a then lstrip s' else s
  | EmptyString => EmptyString
  end.

Fixpoint rstrip (s : string) : string :=
  match s with
  | EmptyString => EmptyString
  | String a s' =>
      match rstrip s' with
      | EmptyString => if is_blank a then EmptyString else str1 a
      | r => String a r
      end
  end.

Definition strip (s : string) : string := lstrip (rstrip s).

(** Python's [str.split(sep)]: the pieces between the occurrences of [c]. *)
Fixpoint split_on (c : ascii) (s : string) : list string :=
  match s with
  | EmptyString => [EmptyString]
  | String a s' =>
      if Ascii.eqb a c then EmptyString :: split_on c s'
      else match split_on c s' with
           | w :: ws => String a w :: ws
           | [] => [str1 a]
           end
  end.

(** [partition_on c s]: the text before the first [c] and, when there is
    one, the text after it (Python's [str.partition]). *)
Fixpoint partition_on (c : ascii) (s : string) : string * option string :=
  match s with
  | EmptyString => (EmptyString, None)
  | String a s' =>
      if Ascii.eqb a c then (EmptyString, Some s')
      else let '(l, r) := partition_on c s' in (String a l, r)
  end.

(** The last [/]-separated component of a path. *)
Definition basename (path : string) : string :=
  default EmptyString (last (split_on "/"%char path)).

Fixpoint join_with (sep : string) (l : list string) : string :=
  match l with
  | [] => EmptyString
  | [x] => x
  | x :: rest => x +:+ sep +:+ join_with sep rest
  end.

(** ** Shell command lines *)

(** A line that ends in a backslash continues on the next one. *)
Definition continued (line : string) : option string :=
  match rev (String.list_ascii_of_string line) with
  | c :: r => if Ascii.eqb c backslash then Some (String.string_of_list_ascii (rev r)) else None
  | [] => None
  end.

Fixpoint join_continuations (lines : list string) : list string :=
  match lines with
  | [] => []
  | l :: rest =>
      match continued l, join_continuations rest with
      | Some l', nxt :: more => (l' +:+ nxt) :: more
      | Some l', [] => [l']
      | None, joined => l :: joined
      end
  end.

(** Word splitting as the shell does it for the commands of this notebook:
    blanks separate words, a pair of double quotes groups and is removed.
    The commands have no single quote and no backslash inside a word; the
    shell's reading of those is not modelled.
    [cur] is the word being read, if any. *)
Fixpoint shell_words_from (in_quotes : bool) (cur : option string) (s : string)
  : list string :=
  match s with
  | EmptyString => match cur with Some w => [w] | None => [] end
  | String a s' =>
      if Ascii.eqb a dquote then
        shell_words_from (negb in_quotes) (Some (default EmptyString cur)) s'
      else if is_blank a && negb in_quotes then
        match cur with
        | Some w => w :: shell_words_from false None s'
        | None => shell_words_from false None s'
        end
      else shell_words_from in_quotes (Some (default EmptyString cur +:+ str1 a)) s'
  end.

Definition shell_words (s : string) : list string := shell_words_from false None s.

(** The word that follows the option [flag] in an argument vector. *)
Fixpoint option_value (flag : string) (argv : list string) : option string :=
  match argv with
  | a :: ((v :: _) as rest) => if String.eqb a flag then Some v else option_value flag rest
  | _ => None
  end.

(** ** YAML and JSON files, URLs *)

(** The top-level entries of a block-style YAML mapping: the lines that start
    in the first column with something else than a comment or a list dash,
    split at their first colon. *)
Definition yaml_entry (line : string) : option (string * string) :=
  match line with
  | EmptyString => None
  | String a _ =>
      if is_blank a || Ascii.eqb a "#"%char || Ascii.eqb a "-"%char then None
      else match partition_on ":"%char line with
           | (k, Some v) => Some (k, strip v)
           | (_, None) => None
           end
  end.

Definition yaml_top_level (lines : list string) : list (string * string) :=
  omap yaml_entry lines.

(** The lines that belong to the top-level entry [key]: the indented lines
    after it, up to the next line that starts in the first column. *)
Fixpoint yaml_block (key : string) (inside : bool) (lines : list string) : list string :=
  match lines with
  | [] => []
  | l :: rest =>
      match yaml_entry l with
      | Some (k, _) => yaml_block key (String.eqb k key) rest
      | None => if inside then l :: yaml_block key true rest else yaml_block key false rest
      end
  end.

(** A list item of a YAML block sequence: a dash after the indentation. *)
Definition is_list_item (line : string) : bool := starts_with "- " (strip line).

Fixpoint assoc (k : string) (l : list (string * string)) : option string :=
  match l with
  | [] => None
  | (k', v) :: rest => if String.eqb k k' then Some v else assoc k rest
  end.

Inductive token := TLBrace | TRBrace | TColon | TComma | TStr (s : string).

(** Tokens of a JSON text made of braces, colons, commas and string literals
    without escapes; [cur] is the string literal being read, if any. *)
Fixpoint json_tokens (cur : option string) (s : string) : option (list token) :=
  match s with
  | EmptyString => match cur with None => Some [] | Some _ => None end
  | String a s' =>
      match cur with
      | Some w =>
          if Ascii.eqb a dquote then cons (TStr w) <$> json_tokens None s'
          else if Ascii.eqb a backslash then None
          else json_tokens (Some (w +:+ str1 a)) s'
      | None =>
          if is_blank a || Ascii.eqb a "010"%char then json_tokens None s'
          else if Ascii.eqb a "{"%char then cons TLBrace <$> json_tokens None s'
          else if Ascii.eqb a "}"%char then cons TRBrace <$> json_tokens None s'
          else if Ascii.eqb a ":"%char then cons TColon <$> json_tokens None s'
          else if Ascii.eqb a ","%char then cons TComma <$> json_tokens None s'
          else if Ascii.eqb a dquote then json_tokens (Some EmptyString) s'
          else None
      end
  end.

Fixpoint json_members (ts : list token) : option (list (string * string)) :=
  match ts with
  | TStr k :: TColon :: TStr v :: TComma :: rest => cons (k, v) <$> json_members rest
  | [TStr k; TColon; TStr v; TRBrace] => Some [(k, v)]
  | _ => None
  end.

(** A JSON object whose values are all strings, as a list of its members. *)
Definition json_flat_object (lines : list string) : option (list (string * string)) :=
  match json_tokens None (join_with (str1 "010"%char) lines) with
  | Some (TLBrace :: [TRBrace]) => Some []
  | Some (TLBrace :: ts) => json_members ts
  | _ => None
  end.

(** The path segments of an [http://host/path] URL. *)
Definition url_segments (url : string) : option (list string) :=
  match strip_prefix "http://" url with
  | Some rest => match split_on "/"%char rest with
                 | _host :: segs => Some segs
                 | [] => None
                 end
  | None => None
  end.

Definition url_host (url : string) : option string :=
  match strip_prefix "http://" url with
  | Some rest => head (split_on "/"%char rest)
  | None => None
  end.

(** The segment after [/v2/models/] in an inference URL of the V2 protocol. *)
Definition url_model_name (url : string) : option string :=
  match url_segments url with
  | Some [v; m; name; _verb] =>
      if String.eqb v "v2" && String.eqb m "models" then Some name else None
  | _ => None
  end.

(** ** The notebook's text

    Every cell's [source], one string per line, in the order of the file.  The
    notebook stores each line but a cell's last with its newline; the newline
    is left out here.  A double quote of the notebook is written [q]. *)

(** Cell 0 (markdown): title and motivation. *)
Definition intro_markdown : list string :=
  [ "# Custom Conda environments in MLServer";
    EmptyString;
    "It's not unusual that model runtimes require extra dependencies that are not direct dependencies of MLServer.";
    "This is the case when we want to use [custom runtimes](../custom/README), but also when our model artifacts are the output of older versions of a toolkit (e.g. models trained with an older version of SKLearn).";
    EmptyString;
    "In these cases, since these dependencies (or dependency versions) are not known in advance by MLServer, they **won't be included in the default `seldonio/mlserver` Docker image**.";
    "To cover these cases, the **`seldonio/mlserver` Docker image allows you to load custom environments** before starting the server itself.";
    EmptyString;
    "This example will walk you through how to create and save an custom environment, so that it can be loaded in MLServer without any extra change to the `seldonio/mlserver` Docker image. " ].

(** Cell 1 (markdown). *)
Definition define_markdown : list string :=
  [ "## Define our environment";
    EmptyString;
    "For this example, we will create a custom environment to serve a model trained with an older version of Scikit-Learn. ";
    "The first step will be define this environment, using a [`environment.yml`](https://docs.conda.io/projects/conda/en/latest/user-guide/tasks/manage-environments.html#create-env-file-manually). ";
    EmptyString;
    "Note that these environments can also be created on the fly as we go, and then serialised later." ].

(** Cell 2 (code): the [%%writefile] magic writes the rest of the cell to
    [environment.yml]. *)
Definition environment_source : list string :=
  [ "%%writefile environment.yml";
    EmptyString;
    "name: old-sklearn";
    "dependencies:";
    "  - python == 3.7";
    "  - scikit-learn == 0.20.3";
    "  - joblib == 0.13.0";
    "  - requests";
    "  - pip:";
    "        - mlserver == 0.6.0.dev0";
    "        - mlserver-sklearn ==0.6.0.dev0" ].

(** Cell 3 (markdown). *)
Definition train_markdown : list string :=
  [ "### Train model in our custom environment";
    EmptyString;
    "To illustrate the point, we will train a Scikit-Learn model using our older environment.";
    EmptyString;
    "The first step will be to create and activate an environment which reflects what's outlined in our `environment.yml` file.";
    EmptyString;
    "> **NOTE:** If you are running this from a Jupyter Notebook, you will need to restart your Jupyter instance so that it runs from this environment." ].

(** Cell 4 (code): two shell escapes. *)
Definition conda_create_source : list string :=
  [ "!conda env create --force -f environment.yml";
    "!conda activate old-sklearn" ].

(** Cell 5 (markdown). *)
Definition model_markdown : list string :=
  [ "We can now train and save a Scikit-Learn model using the older version of our environment.";
    "This model will be serialised as `model.joblib`.";
    EmptyString;
    "You can find more details of this process in the [Scikit-Learn example](../sklearn/README)." ].

(** Cell 6 (code, Python): training. *)
Definition train_source : list string :=
  [ "# Original source code and more details can be found in:";
    "# https://scikit-learn.org/stable/auto_examples/classification/plot_digits_classification.html";
    EmptyString;
    "# Import datasets, classifiers and performance metrics";
    "from sklearn import datasets, svm, metrics";
    "from sklearn.model_selection import train_test_split";
    EmptyString;
    "# The digits dataset";
    "digits = datasets.load_digits()";
    EmptyString;
    "# To apply a classifier on this data, we need to flatten the image, to";
    "# turn the data in a (samples, feature) matrix:";
    "n_samples = len(digits.images)";
    "data = digits.images.reshape((n_samples, -1))";
    EmptyString;
    "# Create a classifier: a support vector classifier";
    "classifier = svm.SVC(gamma=0.001)";
    EmptyString;
    "# Split data into train and test subsets";
    "X_train, X_test, y_train, y_test = train_test_split(";
    "    data, digits.target, test_size=0.5, shuffle=False)";
    EmptyString;
    "# We learn the digits on the first half of the digits";
    "classifier.fit(X_train, y_train)" ].

(** Cell 7 (code, Python): serialisation of the model. *)
Definition dump_source : list string :=
  [ "import joblib";
    EmptyString;
    "model_file_name = " +:+ q +:+ "model.joblib" +:+ q;
    "joblib.dump(classifier, model_file_name)" ].

(** Cell 8 (markdown). *)
Definition pack_markdown : list string :=
  [ "### Serialise our custom environment";
    EmptyString;
    "Lastly, we will need to serialise our environment in the format expected by MLServer.";
    "To do that, we will use a tool called [`conda-pack`](https://conda.github.io/conda-pack/).";
    EmptyString;
    "This tool, will save a portable version of our environment as a `.tar.gz` file, also known as _tarball_." ].

(** Cell 9 (code): one shell escape. *)
Definition conda_pack_source : list string :=
  [ "!conda pack --force -n old-sklearn -o old-sklearn.tar.gz" ].

(** Cell 10 (markdown). *)
Definition serving_markdown : list string :=
  [ "## Serving ";
    EmptyString;
    "Now that we have defined our environment (and we've got a sample artifact trained in that environment), we can move to serving our model.";
    EmptyString;
    "To do that, we will first need to select the right runtime through a `model-settings.json` config file." ].

(** Cell 11 (code): [%%writefile] of [model-settings.json]. *)
Definition model_settings_source : list string :=
  [ "%%writefile model-settings.json";
    "{";
    "    " +:+ q +:+ "name" +:+ q +:+ ": " +:+ q +:+ "mnist-svm" +:+ q +:+ ",";
    "    " +:+ q +:+ "implementation" +:+ q +:+ ": " +:+ q +:+ "mlserver_sklearn.SKLearnModel" +:+ q;
    "}" ].

(** Cell 12 (markdown): holds the Docker command in a fenced [bash] block. *)
Definition docker_markdown : list string :=
  [ "We can then spin up our model, using our custom environment, leveraging MLServer's Docker image.";
    "Keep in mind that **you will need Docker installed in your machine to run this example**.";
    EmptyString;
    "Our Docker command will need to take into account the following points:";
    EmptyString;
    "- Mount the example's folder as a volume so that it can be accessed from within the container.";
    "- Let MLServer know that our custom environment's tarball can be found as `old-sklearn.tar.gz`.";
    "- Expose port `8080` so that we can send requests from the outside. ";
    EmptyString;
    "From the command line, this can be done using Docker's CLI as:";
    EmptyString;
    "```bash";
    "docker run -it --rm \";
    "    -v " +:+ q +:+ "$PWD" +:+ q +:+ ":/mnt/models \";
    "    -e " +:+ q +:+ "MLSERVER_ENV_TARBALL=/mnt/models/old-sklearn.tar.gz" +:+ q +:+ " \";
    "    -p 8080:8080 \";
    "    seldonio/mlserver:0.6.0.dev0";
    "```";
    EmptyString;
    "Note that we need to keep the server running in the background while we send requests.";
    "Therefore, it's best to run this command on a separate terminal session." ].

(** Cell 13 (markdown). *)
Definition request_markdown : list string :=
  [ "### Send test inference request";
    EmptyString;
    "We now have our model being served by `mlserver`.";
    "To make sure that everything is working as expected, let's send a request from our test set.";
    EmptyString;
    "For that, we can use the Python types that `mlserver` provides out of box, or we can build our request manually." ].

(** Cell 14 (code, Python): the inference request. *)
Definition infer_source : list string :=
  [ "import requests";
    EmptyString;
    "x_0 = X_test[0:1]";
    "inference_request = {";
    "    " +:+ q +:+ "inputs" +:+ q +:+ ": [";
    "        {";
    "          " +:+ q +:+ "name" +:+ q +:+ ": " +:+ q +:+ "predict" +:+ q +:+ ",";
    "          " +:+ q +:+ "shape" +:+ q +:+ ": x_0.shape,";
    "          " +:+ q +:+ "datatype" +:+ q +:+ ": " +:+ q +:+ "FP32" +:+ q +:+ ",";
    "          " +:+ q +:+ "data" +:+ q +:+ ": x_0.tolist()";
    "        }";
    "    ]";
    "}";
    EmptyString;
    "endpoint = " +:+ q +:+ "http://localhost:8080/v2/models/mnist-svm/infer" +:+ q;
    "response = requests.post(endpoint, json=inference_request)";
    EmptyString;
    "response.json()" ].

(** Cell 15 (code): empty. *)
Definition empty_source : list string :=
  [].
(** ** Reading the cells' text *)

(** A cell whose first line is [%%writefile path] writes the lines after it
    to [path]. *)
Definition writefile_magic (source : list string) : option (string * list string) :=
  match source with
  | first :: content =>
      match strip_prefix "%%writefile " first with
      | Some path => Some (strip path, content)
      | None => None
      end
  | [] => None
  end.

(** A line [!command] hands [command] to the system shell. *)
Definition shell_escape (line : string) : option string := strip_prefix "!" line.

(** The argument vectors of the shell escapes of a cell. *)
Definition shell_commands (source : list string) : list (list string) :=
  shell_words <$> omap shell_escape source.

(** The lines of the first fenced block of a markdown cell. *)
Fixpoint fenced_block (inside : bool) (lines : list string) : list string :=
  match lines with
  | [] => []
  | l :: rest =>
      if starts_with "```" l then (if inside then [] else fenced_block true rest)
      else if inside then l :: fenced_block true rest
      else fenced_block false rest
  end.

Definition environment_yml : list string :=
  default [] (snd <$> writefile_magic environment_source).

Definition model_settings_json : list string :=
  default [] (snd <$> writefile_magic model_settings_source).

(** [conda activate] and [conda pack], as argument vectors. *)
Definition conda_activate : list string := default [] (shell_commands conda_create_source !! 1%nat).
Definition conda_pack : list string := default [] (shell_commands conda_pack_source !! 0%nat).

(** The Docker command of cell 12, continuation lines joined, as a command
    line and as an argument vector. *)
Definition docker_line : option string :=
  match join_continuations (fenced_block false docker_markdown) with
  | [cmd] => Some cmd
  | _ => None
  end.

Definition docker_command : list string := default [] (shell_words <$> docker_line).

(** [-v host:container] and [-e VAR=value] of the Docker command. *)
Definition docker_volume : option (string * string) :=
  match partition_on ":"%char <$> option_value "-v" docker_command with
  | Some (host, Some container) => Some (host, container)
  | _ => None
  end.

Definition docker_env : option (string * string) :=
  match partition_on "="%char <$> option_value "-e" docker_command with
  | Some (var, Some value) => Some (var, value)
  | _ => None
  end.

(** The path inside the container of the file [file] of the folder mounted
    by the volume [(host, container)]. *)
Definition in_container (volume : string * string) (file : string) : string :=
  volume.2 +:+ "/" +:+ file.

(** A Python string literal in double quotes, without escapes. *)
Definition string_literal (s : string) : option string :=
  match s with
  | String c rest =>
      if Ascii.eqb c dquote then
        match partition_on dquote rest with
        | (lit, Some EmptyString) => Some lit
        | _ => None
        end
      else None
  | EmptyString => None
  end.

(** The literal of the first line [name = "literal"] of a Python cell. *)
Definition assigned_literal (name : string) (source : list string) : option string :=
  head (omap (λ line, strip_prefix (name +:+ " = ") line ≫= string_literal) source).

(** The two string literals the Python cells assign to variables. *)
Definition endpoint_url : string :=
  default EmptyString (assigned_literal "endpoint" infer_source).

Definition model_file : string :=
  default EmptyString (assigned_literal "model_file_name" dump_source).

(** ** The names the Python cells bind *)

(** The text of [s] before the first occurrence of [p]. *)
Fixpoint before (p s : string) : option string :=
  if starts_with p s then Some EmptyString
  else match s with
       | EmptyString => None
       | String a s' => String a <$> before p s'
       end.

(** The names a statement that starts a line binds: [import m] binds [m],
    [from m import a, b] binds [a] and [b], [a, b = ...] binds [a] and [b];
    comments, continuation lines and expression statements bind nothing. *)
Definition bound_by (line : string) : list string :=
  if starts_with " " line || starts_with "#" line then []
  else match strip_prefix "import " line, strip_prefix "from " line with
       | Some m, _ => [strip m]
       | None, Some rest =>
           match before " import " rest with
           | Some m => strip <$> split_on ","%char (drop_chars (String.length m + 8) rest)
           | None => []
           end
       | None, None =>
           match before " = " line with
           | Some targets => strip <$> split_on ","%char targets
           | None => []
           end
       end.

(** The names bound by the statements of the three Python cells. *)
Definition assigned_names : list string :=
  (train_source ++ dump_source ++ infer_source) ≫= bound_by.

(** ** More of the cells' text: ports, image and requirements *)

(** [-p host:container] of the Docker command, and the image with its tag. *)
Definition docker_ports : option (string * string) :=
  match partition_on ":"%char <$> option_value "-p" docker_command with
  | Some (host, Some container) => Some (host, container)
  | _ => None
  end.

Definition docker_image : option (string * string) :=
  match partition_on ":"%char <$> last docker_command with
  | Some (repository, Some tag) => Some (repository, tag)
  | _ => None
  end.

(** The host name and the port of an [http://host:port/path] URL. *)
Definition url_hostname (url : string) : option string :=
  (λ h, (partition_on ":"%char h).1) <$> url_host url.

Definition url_port (url : string) : option string :=
  url_host url ≫= λ h, (partition_on ":"%char h).2.

(** A list item [- name == version] of [environment.yml], blanks around the
    name and the version apart. *)
Definition requirement (line : string) : option (string * string) :=
  strip_prefix "- " (strip line) ≫= λ item,
    match partition_on "="%char item with
    | (name, Some rest) => (λ version, (strip name, strip version)) <$> strip_prefix "=" rest
    | (_, None) => None
    end.

(** The pinned packages of [environment.yml], Conda's and pip's. *)
Definition requirements : list (string * string) :=
  omap requirement (yaml_block "dependencies" false environment_yml).

Fixpoint replace_char (old new : ascii) (s : string) : string :=
  match s with
  | EmptyString => EmptyString
  | String a s' => String (if Ascii.eqb a old then new else a) (replace_char old new s')
  end.

(** The distribution that provides the top-level module of a dotted Python
    name: the module's name with dashes for underscores. *)
Definition distribution_of (qualname : string) : string :=
  replace_char "_"%char "-"%char (partition_on "."%char qualname).1.

(** ** Values of the kernel *)

Abbreviation Q := QArith_base.Q.
Abbreviation Qmake := QArith_base.Qmake.

Definition Qltb (a b : Q) : bool := if QArith_base.Qlt_le_dec a b then true else false.

Section Kernel.
(** The element type of the arrays (NumPy scalars: the kernel only moves
    them around) and the handle of an estimator object held by
    Scikit-Learn. *)
Context {scalar estimator : Type}.

(** A NumPy array: its shape and its elements in row-major order. *)
Record ndarray := NDArray { shape : list nat; buffer : list scalar }.

Inductive json :=
| JNull
| JBool (b : bool)
| JInt (n : Z)
| JNumber (x : scalar)
| JString (s : string)
| JArray (items : list json)
| JObject (members : list (string * json)).

(** [requests.Response]: the status and, when the body is JSON, its value. *)
Record response := Response { status_code : Z; content : option json }.

(** The [Bunch] returned by [load_digits]: of its attributes the notebook
    reads [images] and [target]. *)
Record bunch := Bunch { images : ndarray; target : ndarray }.

Inductive pyobj :=
| ONone
| OBool (b : bool)
| OInt (n : Z)
| ONumber (x : scalar)
| OStr (s : string)
| OList (items : list pyobj)
| OTuple (items : list pyobj)
| ODict (items : list (string * pyobj))
| OArray (a : ndarray)
| OBunch (b : bunch)
| OEstimator (e : estimator)
| OResponse (r : response)
| OImported (qualname : string).

Inductive exn :=
| NameError (name : string)
| TypeError (what : string)
| ValueError (what : string)
| IndexError (what : string)
| SyntaxError (line : string)
| Failure (message : string).

(** *** NumPy and Scikit-Learn functions the cells apply to arrays *)

Definition size_of (dims : list nat) : nat := foldr Nat.mul 1%nat dims.

(** [len(a)]: the first dimension; a 0-d array has no [len]. *)
Definition array_len (a : ndarray) : option nat := head (shape a).

(** [a.reshape((n, -1))]: the second dimension is inferred from the size,
    which [n] must divide. *)
Definition reshape_rows (n : nat) (a : ndarray) : option ndarray :=
  let size := size_of (shape a) in
  if bool_decide (n ≠ 0%nat ∧ size `mod` n = 0)%nat
  then Some (NDArray [n; size `div` n]%nat (buffer a))
  else None.

(** [a[lo:hi]] on the first axis, the bounds clipped to the length. *)
Definition rows (lo hi : nat) (a : ndarray) : option ndarray :=
  match shape a with
  | [] => None
  | n :: inner =>
      let lo' := lo `min` n in
      let hi' := hi `min` n in
      let width := size_of inner in
      Some (NDArray ((hi' - lo')%nat :: inner)
                    (take ((hi' - lo') * width)%nat (drop (lo' * width)%nat (buffer a))))
  end.

Fixpoint chunks {A} (n width : nat) (l : list A) : list (list A) :=
  match n with
  | O => []
  | S n' => take width l :: chunks n' width (drop width l)
  end.

(** [a.tolist()]: nested lists, one level per dimension. *)
Fixpoint tolist_from (dims : list nat) (buf : list scalar) : pyobj :=
  match dims with
  | [] => match buf with x :: _ => ONumber x | [] => ONone end
  | n :: inner => OList (tolist_from inner <$> chunks n (size_of inner) buf)
  end.

Definition tolist (a : ndarray) : pyobj := tolist_from (shape a) (buffer a).

(** [a.shape]: a tuple of ints. *)
Definition shape_tuple (a : ndarray) : pyobj :=
  OTuple ((λ n, OInt (Z.of_nat n)) <$> shape a).

(** [train_test_split(X, y, test_size=t, shuffle=False)] of Scikit-Learn
    0.20: [n_test = ceil(t * n)], [n_train = n - n_test], the train parts are
    the first [n_train] rows and the test parts the [n_test] rows after them.
    With arrays of different lengths it raises [ValueError].  The model is
    for a [test_size] strictly between 0 and 1, as the 0.5 of the notebook;
    outside of that range it gives no result, which is not meant as a
    description of the library.  [n_test] is computed on rationals, where
    the library multiplies floats; for 0.5 the two products are the same. *)
Definition n_test_of (test_size : Q) (n : nat) : nat :=
  Z.to_nat (Qround.Qceiling (QArith_base.Qmult test_size (QArith_base.inject_Z (Z.of_nat n)))).

Definition train_test_split (X y : ndarray) (test_size : Q)
  : option (ndarray * ndarray * ndarray * ndarray) :=
  n ← array_len X;
  m ← array_len y;
  if bool_decide (n = m) && Qltb (QArith_base.inject_Z 0) test_size
       && Qltb test_size (QArith_base.inject_Z 1)
  then
    let n_test := n_test_of test_size n in
    let n_train := (n - n_test)%nat in
    X_train ← rows 0 n_train X;
    X_test ← rows n_train (n_train + n_test) X;
    y_train ← rows 0 n_train y;
    y_test ← rows n_train (n_train + n_test) y;
    Some (X_train, X_test, y_train, y_test)
  else None.

(** *** JSON *)

(** [json.dumps], as [requests] applies it to the [json=] argument: dicts,
    lists, tuples, strings, numbers, booleans and [None] have a JSON form,
    other objects have none. *)
Fixpoint to_json (v : pyobj) : option json :=
  match v with
  | ONone => Some JNull
  | OBool b => Some (JBool b)
  | OInt n => Some (JInt n)
  | ONumber x => Some (JNumber x)
  | OStr s => Some (JString s)
  | OList l | OTuple l => JArray <$> mapM to_json l
  | ODict d => JObject <$> mapM (λ kv, pair kv.1 <$> to_json kv.2) d
  | _ => None
  end.

(** [json.loads]: arrays become lists and objects dicts. *)
Fixpoint of_json (j : json) : pyobj :=
  match j with
  | JNull => ONone
  | JBool b => OBool b
  | JInt n => OInt n
  | JNumber x => ONumber x
  | JString s => OStr s
  | JArray l => OList (of_json <$> l)
  | JObject d => ODict ((λ kv, (kv.1, of_json kv.2)) <$> d)
  end.
(** ** The kernel *)

(** *** Calls to the outside

    What a cell asks of a tool outside the kernel, indexed by the type of
    what the tool gives back. *)
Inductive call : Type → Type :=
| import_module (name : string) : call unit
| import_from (module : string) (names : list string) : call unit
| writefile (path : string) (text : list string) : call unit
| system (command : string) : call Z
| load_digits : call bunch
| SVC (gamma : Q) : call estimator
| fit (clf : estimator) (X y : ndarray) : call unit
| joblib_dump (value : estimator) (filename : string) : call (list string)
| requests_post (url : string) (payload : json) : call response
| display (value : pyobj) : call unit.

Inductive reply (X : Type) :=
| Returns (x : X)
| Raises (e : exn).
Global Arguments Returns {X} x.
Global Arguments Raises {X} e.

(** One line of the log: a call and what came back. *)
Inductive entry :=
| Entry : ∀ X : Type, call X → reply X → entry.
Global Arguments Entry {X} _ _.

(** The world outside the kernel answers every call, knowing the calls
    made so far. *)
Definition world := ∀ X, list entry → call X → reply X.

(** *** State and exceptions *)

(** The kernel's state: the variables of the user namespace, shared by all
    cells, and the log of the calls.  The namespace holds what the code of
    the cells binds, [_exit_code] included; the variables that IPython sets
    by itself at each cell (the input history [_i], [_ii], [_iii], [_i<n>]
    and the like) are left out. *)
Record state := State { namespace : gmap string pyobj; log : list entry }.

Inductive result (A : Type) :=
| Ok (a : A)
| Exc (e : exn).
Global Arguments Ok {A} a.
Global Arguments Exc {A} e.

(** A computation of the kernel changes the state and returns or raises;
    the state reached when an exception is raised is kept. *)
Definition kernel (A : Type) : Type := state → state * result A.

Global Instance kernel_ret : MRet kernel := λ A a st, (st, Ok a).

Global Instance kernel_bind : MBind kernel := λ A B f m st,
  match m st with
  | (st', Ok a) => f a st'
  | (st', Exc e) => (st', Exc e)
  end.

Definition raise {A} (e : exn) : kernel A := λ st, (st, Exc e).

Definition lift {A} (e : exn) (o : option A) : kernel A :=
  match o with
  | Some a => mret a
  | None => raise e
  end.

(** Reading a variable that is not bound raises [NameError]. *)
Definition load (name : string) : kernel pyobj := λ st,
  match namespace st !! name with
  | Some v => (st, Ok v)
  | None => (st, Exc (NameError name))
  end.

Definition store (name : string) (v : pyobj) : kernel unit := λ st,
  (State (<[name := v]> (namespace st)) (log st), Ok ()).

(** The value of a name, as the type the statement needs.  A value of
    another type ends the cell with [TypeError] where the name is read,
    which is where Python would raise for the bindings of this notebook;
    for other bindings (a list as [X_test], say) Python would go further
    in the cell before it raises, and that is not modelled. *)
Definition as_array (v : pyobj) : kernel ndarray :=
  match v with OArray a => mret a | _ => raise (TypeError "not an ndarray") end.
Definition as_bunch (v : pyobj) : kernel bunch :=
  match v with OBunch b => mret b | _ => raise (TypeError "not a Bunch") end.
Definition as_int (v : pyobj) : kernel Z :=
  match v with OInt n => mret n | _ => raise (TypeError "not an int") end.
Definition as_str (v : pyobj) : kernel string :=
  match v with OStr s => mret s | _ => raise (TypeError "not a str") end.
Definition as_estimator (v : pyobj) : kernel estimator :=
  match v with OEstimator e => mret e | _ => raise (TypeError "not an estimator") end.
Definition as_response (v : pyobj) : kernel response :=
  match v with OResponse r => mret r | _ => raise (TypeError "not a Response") end.

(** The variable [name] holds what the import of [qualname] bound. *)
Definition imported (name qualname : string) : kernel unit :=
  v ← load name;
  match v with
  | OImported q' => if String.eqb q' qualname then mret () else raise (TypeError name)
  | _ => raise (TypeError name)
  end.

Section Cells.
Variable w : world.

(** A call is answered by the world and logged, whatever the answer. *)
Definition perform {X} (c : call X) : kernel X := λ st,
  let r := w X (log st) c in
  (State (namespace st) (log st ++ [Entry c r]),
   match r with Returns x => Ok x | Raises e => Exc e end).

(** The value of the expression statement that ends a cell is handed to
    [sys.displayhook], which shows it (unless it is [None]) as the cell's
    output. *)
Definition displayhook (v : pyobj) : kernel unit := perform (display v).

(** [!command]: the command runs in a subshell of the system; its exit
    status is left in [_exit_code] and nothing is raised. *)
Definition shell_line (command : string) : kernel unit :=
  status ← perform (system command);
  store "_exit_code" (OInt status).

Definition exec_line (line : string) : kernel unit :=
  match shell_escape line with
  | Some command => shell_line command
  | None => if String.eqb (strip line) EmptyString then mret () else raise (SyntaxError line)
  end.

Fixpoint exec_lines (lines : list string) : kernel unit :=
  match lines with
  | [] => mret ()
  | l :: rest => exec_line l ;; exec_lines rest
  end.

(** A code cell of magics: [%%writefile] takes the whole cell, otherwise
    the lines run one after the other. *)
Definition exec_script (source : list string) : kernel unit :=
  match writefile_magic source with
  | Some (path, text) => perform (writefile path text)
  | None => exec_lines source
  end.

(** *** The Python cells, statement by statement *)

(** Cell 6. *)
Definition train_cell : kernel unit :=
  (* from sklearn import datasets, svm, metrics *)
  perform (import_from "sklearn" ["datasets"; "svm"; "metrics"]) ;;
  store "datasets" (OImported "sklearn.datasets") ;;
  store "svm" (OImported "sklearn.svm") ;;
  store "metrics" (OImported "sklearn.metrics") ;;
  (* from sklearn.model_selection import train_test_split *)
  perform (import_from "sklearn.model_selection" ["train_test_split"]) ;;
  store "train_test_split" (OImported "sklearn.model_selection.train_test_split") ;;
  (* digits = datasets.load_digits() *)
  imported "datasets" "sklearn.datasets" ;;
  b ← perform load_digits;
  store "digits" (OBunch b) ;;
  (* n_samples = len(digits.images) *)
  digits ← load "digits" ≫= as_bunch;
  n ← lift (TypeError "len() of unsized object") (array_len (images digits));
  store "n_samples" (OInt (Z.of_nat n)) ;;
  (* data = digits.images.reshape((n_samples, -1)) *)
  digits ← load "digits" ≫= as_bunch;
  n_samples ← load "n_samples" ≫= as_int;
  flat ← lift (ValueError "cannot reshape array")
              (reshape_rows (Z.to_nat n_samples) (images digits));
  store "data" (OArray flat) ;;
  (* classifier = svm.SVC(gamma=0.001) *)
  imported "svm" "sklearn.svm" ;;
  clf ← perform (SVC (Qmake 1 1000));
  store "classifier" (OEstimator clf) ;;
  (* X_train, X_test, y_train, y_test = train_test_split(
         data, digits.target, test_size=0.5, shuffle=False) *)
  imported "train_test_split" "sklearn.model_selection.train_test_split" ;;
  data ← load "data" ≫= as_array;
  digits ← load "digits" ≫= as_bunch;
  '(X_train, X_test, y_train, y_test) ←
    lift (ValueError "train_test_split") (train_test_split data (target digits) (Qmake 1 2));
  store "X_train" (OArray X_train) ;;
  store "X_test" (OArray X_test) ;;
  store "y_train" (OArray y_train) ;;
  store "y_test" (OArray y_test) ;;
  (* classifier.fit(X_train, y_train): fits the object in place and
     returns it *)
  classifier ← load "classifier" ≫= as_estimator;
  X_train ← load "X_train" ≫= as_array;
  y_train ← load "y_train" ≫= as_array;
  perform (fit classifier X_train y_train) ;;
  displayhook (OEstimator classifier).

(** Cell 7. *)
Definition dump_cell : kernel unit :=
  (* import joblib *)
  perform (import_module "joblib") ;;
  store "joblib" (OImported "joblib") ;;
  (* model_file_name = "model.joblib" *)
  store "model_file_name" (OStr model_file) ;;
  (* joblib.dump(classifier, model_file_name) *)
  imported "joblib" "joblib" ;;
  classifier ← load "classifier" ≫= as_estimator;
  model_file_name ← load "model_file_name" ≫= as_str;
  files ← perform (joblib_dump classifier model_file_name);
  displayhook (OList (OStr <$> files)).

(** Cell 14. *)
Definition infer_cell : kernel unit :=
  (* import requests *)
  perform (import_module "requests") ;;
  store "requests" (OImported "requests") ;;
  (* x_0 = X_test[0:1] *)
  X_test ← load "X_test" ≫= as_array;
  x_0 ← lift (IndexError "too many indices for array") (rows 0 1 X_test);
  store "x_0" (OArray x_0) ;;
  (* inference_request = {"inputs": [{"name": "predict", "shape": x_0.shape,
                                      "datatype": "FP32", "data": x_0.tolist()}]} *)
  x_0_for_shape ← load "x_0" ≫= as_array;
  x_0_for_data ← load "x_0" ≫= as_array;
  store "inference_request"
    (ODict [("inputs",
             OList [ODict [("name", OStr "predict");
                           ("shape", shape_tuple x_0_for_shape);
                           ("datatype", OStr "FP32");
                           ("data", tolist x_0_for_data)]])]) ;;
  (* endpoint = "http://localhost:8080/v2/models/mnist-svm/infer" *)
  store "endpoint" (OStr endpoint_url) ;;
  (* response = requests.post(endpoint, json=inference_request) *)
  imported "requests" "requests" ;;
  endpoint ← load "endpoint" ≫= as_str;
  inference_request ← load "inference_request";
  payload ← lift (TypeError "Object is not JSON serializable") (to_json inference_request);
  r ← perform (requests_post endpoint payload);
  store "response" (OResponse r) ;;
  (* response.json() *)
  response ← load "response" ≫= as_response;
  parsed ← lift (ValueError "Expecting value") (of_json <$> content response);
  displayhook parsed.

(** *** The notebook *)

Inductive cell :=
| Markdown (source : list string)
| Script (source : list string)
| Python (source : list string) (body : kernel unit).

Definition notebook : list cell :=
  [ Markdown intro_markdown;
    Markdown define_markdown;
    Script environment_source;
    Markdown train_markdown;
    Script conda_create_source;
    Markdown model_markdown;
    Python train_source train_cell;
    Python dump_source dump_cell;
    Markdown pack_markdown;
    Script conda_pack_source;
    Markdown serving_markdown;
    Script model_settings_source;
    Markdown docker_markdown;
    Markdown request_markdown;
    Python infer_source infer_cell;
    Script empty_source ].

(** Running a markdown cell renders it and changes nothing. *)
Definition exec_cell (c : cell) : kernel unit :=
  match c with
  | Markdown _ => mret ()
  | Script source => exec_script source
  | Python _ body => body
  end.

(** Cells run from top to bottom; the run stops at the first exception. *)
Fixpoint run_cells (cells : list cell) : kernel unit :=
  match cells with
  | [] => mret ()
  | c :: rest => exec_cell c ;; run_cells rest
  end.

Definition fresh : state := State ∅ [].

Definition run_all : state * result unit := run_cells notebook fresh.
End Cells.

(** ** Reading the log *)

(** The HTTP requests of a log: URL, JSON body and what came back. *)
Definition posts (l : list entry) : list (string * json * reply response) :=
  omap (λ en, match en with
              | Entry c r =>
                  match c in call X return reply X → option (string * json * reply response) with
                  | requests_post url payload => λ r, Some (url, payload, r)
                  | _ => λ _, None
                  end r
              end) l.

(** The calls of [fit]: the estimator and the two arrays. *)
Definition fits (l : list entry) : list (estimator * ndarray * ndarray) :=
  omap (λ en, match en with
              | Entry (fit clf X y) _ => Some (clf, X, y)
              | _ => None
              end) l.

(** The datasets [load_digits] returned. *)
Definition loaded (l : list entry) : list bunch :=
  omap (λ en, match en with
              | Entry c r =>
                  match c in call X return reply X → option bunch with
                  | load_digits => λ r, match r with Returns b => Some b | Raises _ => None end
                  | _ => λ _, None
                  end r
              end) l.

(** The objects handed to [joblib.dump]. *)
Definition dumped (l : list entry) : list (estimator * string) :=
  omap (λ en, match en with
              | Entry (joblib_dump clf file) _ => Some (clf, file)
              | _ => None
              end) l.

(** The shell commands, and the files written by [%%writefile]. *)
Definition commands (l : list entry) : list string :=
  omap (λ en, match en with Entry (system cmd) _ => Some cmd | _ => None end) l.

Definition writes (l : list entry) : list (string * list string) :=
  omap (λ en, match en with Entry (writefile path text) _ => Some (path, text) | _ => None end) l.

(** What an entry raised, the exit status a shell command returned, the
    value an entry displayed. *)
Definition exception_of (en : entry) : option exn :=
  match en with
  | Entry _ (Raises e) => Some e
  | Entry _ (Returns _) => None
  end.

Definition exit_status_of (en : entry) : option Z :=
  match en with
  | Entry c r =>
      match c in call X return reply X → option Z with
      | system _ => λ r, match r with Returns status => Some status | Raises _ => None end
      | _ => λ _, None
      end r
  end.

Definition display_of (en : entry) : option pyobj :=
  match en with
  | Entry (display v) _ => Some v
  | _ => None
  end.

Definition exceptions (l : list entry) : list exn := omap exception_of l.

(** A failure of a step, in the words of the specification: an exception or
    a non-zero exit status.  [failures_propagate] says of a run that each of
    them reaches the caller: the run ends with an exception. *)
Definition failed (en : entry) : bool :=
  match exception_of en, exit_status_of en with
  | Some _, _ => true
  | None, Some status => negb (status =? 0)%Z
  | None, None => false
  end.

Definition failures_propagate (run : state * result ()) : Prop :=
  ∀ en, en ∈ log run.1 → failed en = true → ∃ e, run.2 = Exc e.

(** The seven steps of the walk-through, and the step a logged call belongs
    to: writing [environment.yml] is step 1, [conda env ...] and
    [conda activate] step 2, loading the data, building the classifier and
    fitting it step 3, [joblib.dump] step 4, [conda pack] step 5, a
    [docker run] step 6, the HTTP request step 7.  Imports, displays and the
    writing of [model-settings.json] belong to none of the seven. *)
Inductive step :=
| WriteDescriptor
| EnvironmentManager
| Train
| Serialize
| Package
| LaunchContainer
| InferenceRequest.

Definition step_number (s : step) : nat :=
  match s with
  | WriteDescriptor => 1
  | EnvironmentManager => 2
  | Train => 3
  | Serialize => 4
  | Package => 5
  | LaunchContainer => 6
  | InferenceRequest => 7
  end.

Definition step_of_command (cmd : string) : option step :=
  match shell_words cmd with
  | tool :: sub :: _ =>
      if String.eqb tool "conda" then
        if String.eqb sub "pack" then Some Package
        else if String.eqb sub "env" || String.eqb sub "activate" then Some EnvironmentManager
        else None
      else if String.eqb tool "docker" && String.eqb sub "run" then Some LaunchContainer
      else None
  | _ => None
  end.

Definition step_of (en : entry) : option step :=
  match en with
  | Entry (writefile path _) _ =>
      if String.eqb path "environment.yml" then Some WriteDescriptor else None
  | Entry (system cmd) _ => step_of_command cmd
  | Entry load_digits _ | Entry (SVC _) _ | Entry (fit _ _ _) _ => Some Train
  | Entry (joblib_dump _ _) _ => Some Serialize
  | Entry (requests_post _ _) _ => Some InferenceRequest
  | _ => None
  end.

(** A list without the repetitions of an element right after itself. *)
Fixpoint squeeze (l : list nat) : list nat :=
  match l with
  | a :: ((b :: _) as rest) => if bool_decide (a = b) then squeeze rest else a :: squeeze rest
  | _ => l
  end.

(** The numbers of the steps a log went through, in the order of the log. *)
Definition steps_performed (l : list entry) : list nat :=
  squeeze (step_number <$> omap step_of l).

(** What a logged call asks for, the data it carries left out: for each
    call of the cells the part that is written in the notebook. *)
Inductive label :=
| LImport (name : string)
| LImportFrom (module : string) (names : list string)
| LWriteFile (path : string)
| LSystem (command : string)
| LLoadDigits
| LSVC
| LFit
| LDump (filename : string)
| LPost (url : string)
| LDisplay.

Definition label_of (en : entry) : label :=
  match en with
  | Entry (import_module name) _ => LImport name
  | Entry (import_from module names) _ => LImportFrom module names
  | Entry (writefile path _) _ => LWriteFile path
  | Entry (system command) _ => LSystem command
  | Entry load_digits _ => LLoadDigits
  | Entry (SVC _) _ => LSVC
  | Entry (fit _ _ _) _ => LFit
  | Entry (joblib_dump _ filename) _ => LDump filename
  | Entry (requests_post url _) _ => LPost url
  | Entry (display _) _ => LDisplay
  end.

(** The calls of the notebook in the order of its cells and statements. *)
Definition scripted_calls : list label :=
  [ LWriteFile "environment.yml";
    LSystem "conda env create --force -f environment.yml";
    LSystem "conda activate old-sklearn";
    LImportFrom "sklearn" ["datasets"; "svm"; "metrics"];
    LImportFrom "sklearn.model_selection" ["train_test_split"];
    LLoadDigits;
    LSVC;
    LFit;
    LDisplay;
    LImport "joblib";
    LDump "model.joblib";
    LDisplay;
    LSystem "conda pack --force -n old-sklearn -o old-sklearn.tar.gz";
    LWriteFile "model-settings.json";
    LImport "requests";
    LPost "http://localhost:8080/v2/models/mnist-svm/infer";
    LDisplay ].


(** The members of a JSON object and their keys. *)
Definition members_of (j : json) : option (list (string * json)) :=
  match j with
  | JObject ms => Some ms
  | _ => None
  end.

Definition keys_of (j : json) : option (list string) :=
  (λ ms : list (string * json), ms.*1) <$> members_of j.

Fixpoint member (k : string) (ms : list (string * json)) : option json :=
  match ms with
  | [] => None
  | (k', v) :: rest => if String.eqb k k' then Some v else member k rest
  end.

Definition field (k : string) (j : json) : option json := members_of j ≫= member k.

(** The JSON form of an array's [shape] and of its [tolist()]. *)
Definition json_shape (a : ndarray) : json :=
  JArray ((λ n, JInt (Z.of_nat n)) <$> shape a).

Fixpoint json_from (dims : list nat) (buf : list scalar) : json :=
  match dims with
  | [] => match buf with x :: _ => JNumber x | [] => JNull end
  | n :: inner => JArray (json_from inner <$> chunks n (size_of inner) buf)
  end.

Definition json_data (a : ndarray) : json := json_from (shape a) (buffer a).

(** The JSON body of the inference request for the array [a]. *)
Definition request_body (a : ndarray) : json :=
  JObject [("inputs",
            JArray [JObject [("name", JString "predict");
                             ("shape", json_shape a);
                             ("datatype", JString "FP32");
                             ("data", json_data a)]])].

(** ** Weakest preconditions

    [wp m Q st]: from the state [st], the computation [m] ends in a state and
    a result that satisfy [Q].  *)
Definition wp {A} (m : kernel A) (Q : state → result A → Prop) (st : state) : Prop :=
  Q (m st).1 (m st).2.
End Kernel.

(** ** A world to run the notebook in

    Four images of 8x8 pixels (pixel [i] of the buffer is the number [i]),
    estimators numbered by [nat], a server that answers 200 with a JSON
    object, and [conda] commands that all exit with [conda_status]. *)
Definition sample_pixels : list Z := Z.of_nat <$> seq 0 256.

Definition sample_digits : @bunch Z :=
  Bunch (NDArray [4; 8; 8]%nat sample_pixels) (NDArray [4%nat] [0; 1; 2; 3]%Z).

Definition sample_response : @response Z :=
  Response 200 (Some (JObject [("model_name", JString "mnist-svm")])).

Definition sample_world (conda_status : Z) : @world Z nat := λ X history c,
  match c in call X return reply X with
  | import_module _ | import_from _ _ | writefile _ _ | fit _ _ _ | display _ => Returns ()
  | system _ => Returns conda_status
  | load_digits => Returns sample_digits
  | SVC _ => Returns 7%nat
  | joblib_dump _ file => Returns [file]
  | requests_post _ _ => Returns sample_response
  end.

(** The request of the run in [sample_world]: row 2 of the four images. *)
Definition sample_request : string * @json Z * reply (@response Z) :=
  ("http://localhost:8080/v2/models/mnist-svm/infer",
   request_body (NDArray [1; 64]%nat (take 64 (drop 128 sample_pixels))),
   Returns sample_response).

(** A world whose dataset has no sample, and otherwise like [sample_world 0]. *)
Definition empty_digits : @bunch Z :=
  Bunch (NDArray [0; 8; 8]%nat []) (NDArray [0%nat] []).

Definition empty_world : @world Z nat := λ X history c,
  match c in call X return reply X with
  | load_digits => Returns empty_digits
  | c' => sample_world 0 _ history c'
  end.

(** A world where environment creation fails (status 1) and the other
    commands succeed, and otherwise like [sample_world 0]. *)
Definition create_fails_world : @world Z nat := λ X history c,
  match c in call X return reply X with
  | system command =>
      Returns (if starts_with "conda env create" command then 1 else 0)%Z
  | c' => sample_world 0 _ history c'
  end.

(** The errors that the array and JSON operations of the cells raise on
    their own, without a call to the outside. *)
Definition data_errors : list exn :=
  [ TypeError "len() of unsized object";
    ValueError "cannot reshape array";
    ValueError "train_test_split";
    ValueError "Expecting value" ].

(** * Properties *)

Section Properties.
Context {scalar estimator : Type}.
Variable w : @world scalar estimator.

(** ** Arrays *)

(** With [test_size=0.5] the test part has [ceil(n/2)] rows, which leaves the
    first [n/2] (rounded down) for training. *)
Lemma n_test_of_half n : n_test_of (Qmake 1 2) n = ((n + 1) `div` 2)%nat.
Proof.
  unfold n_test_of, Qround.Qceiling, Qround.Qfloor, QArith_base.Qopp, QArith_base.Qmult,
    QArith_base.inject_Z.
  cbn [QArith_base.Qnum QArith_base.Qden].
  change (Z.pos (2 * 1)) with 2%Z.
  apply Nat2Z.inj. rewrite Nat2Z.inj_div, Nat2Z.inj_add.
  rewrite Z2Nat.id; Z.div_mod_to_equations; lia.
Qed.

Lemma half_train n : (n - (n + 1) `div` 2 = n `div` 2)%nat.
Proof.
  apply Nat2Z.inj. rewrite Nat2Z.inj_sub, !Nat2Z.inj_div, Nat2Z.inj_add.
  - Z.div_mod_to_equations; lia.
  - apply Nat2Z.inj_le. rewrite Nat2Z.inj_div, Nat2Z.inj_add.
    Z.div_mod_to_equations; lia.
Qed.

Lemma half_total n : (n `div` 2 + (n + 1) `div` 2 = n)%nat.
Proof.
  apply Nat2Z.inj. rewrite Nat2Z.inj_add, !Nat2Z.inj_div, Nat2Z.inj_add.
  Z.div_mod_to_equations; lia.
Qed.

Lemma half_lt n : (0 < n → n `div` 2 < n)%nat.
Proof.
  intros Hn. pose proof (half_total n) as Ht.
  destruct (decide ((n + 1) `div` 2 = 0)%nat) as [Hz|]; [|lia].
  exfalso. apply (f_equal Z.of_nat) in Hz. rewrite Nat2Z.inj_div, Nat2Z.inj_add in Hz.
  revert Hz. Z.div_mod_to_equations. lia.
Qed.

(** [train_test_split(X, y, test_size=0.5, shuffle=False)] cuts both arrays
    at row [n/2]. *)
Lemma train_test_split_half (X y a b c d : @ndarray scalar) :
  train_test_split X y (Qmake 1 2) = Some (a, b, c, d) →
  ∃ n, array_len X = Some n ∧ array_len y = Some n ∧
       rows 0 (n `div` 2) X = Some a ∧ rows (n `div` 2) n X = Some b ∧
       rows 0 (n `div` 2) y = Some c ∧ rows (n `div` 2) n y = Some d.
Proof.
  unfold train_test_split. intros H.
  destruct (array_len X) as [n|] eqn:HX; [|done].
  destruct (array_len y) as [m|] eqn:Hy; [|done].
  cbn [mbind option_bind] in H.
  case_bool_decide; [subst m|done].
  change (Qltb (QArith_base.inject_Z 0) (Qmake 1 2)) with true in H.
  change (Qltb (Qmake 1 2) (QArith_base.inject_Z 1)) with true in H.
  cbn [andb] in H.
  rewrite n_test_of_half, half_train, half_total in H.
  exists n. simplify_option_eq. done.
Qed.

(** Flattening [n] samples keeps the buffer and gives each row the size of
    one sample. *)
Lemma reshape_rows_samples n inner (buf : list scalar) flat :
  reshape_rows n (NDArray (n :: inner) buf) = Some flat →
  n ≠ 0%nat ∧ flat = NDArray [n; size_of inner] buf.
Proof.
  unfold reshape_rows. cbn [shape buffer size_of foldr].
  case_bool_decide as Hn; [|done]. destruct Hn as [Hn _].
  intros [= <-]. split; [done|].
  by rewrite Nat.mul_comm, Nat.div_mul.
Qed.

Lemma rows_shape lo hi (a r : @ndarray scalar) :
  rows lo hi a = Some r →
  ∃ n inner, shape a = n :: inner ∧
    r = NDArray ((hi `min` n - lo `min` n)%nat :: inner)
          (take ((hi `min` n - lo `min` n) * size_of inner)%nat
                (drop (lo `min` n * size_of inner)%nat (buffer a))).
Proof.
  unfold rows. destruct (shape a) as [|n inner]; [done|].
  intros [= <-]. eauto.
Qed.

(** ** JSON *)

(** Lists of numbers always have a JSON form. *)
Lemma to_json_tolist dims (buf : list scalar) :
  to_json (tolist_from (estimator:=estimator) dims buf) = Some (json_from dims buf).
Proof.
  revert buf. induction dims as [|n inner IH]; intros buf.
  - by destruct buf.
  - cbn [tolist_from json_from to_json].
    generalize (chunks n (size_of inner) buf). intros cs.
    assert (mapM to_json (tolist_from inner <$> cs) = Some (json_from inner <$> cs)) as ->; [|done].
    induction cs as [|c cs IHcs]; [done|].
    cbn. rewrite IH. cbn. rewrite IHcs. done.
Qed.

Lemma to_json_shape (a : @ndarray scalar) :
  to_json (shape_tuple (estimator:=estimator) a) = Some (json_shape a).
Proof.
  unfold shape_tuple, json_shape. cbn [to_json].
  assert (mapM (to_json (estimator:=estimator)) ((λ n, OInt (Z.of_nat n)) <$> shape a)
          = Some ((λ n, JInt (Z.of_nat n)) <$> shape a)) as ->; [|done].
  induction (shape a) as [|n l IH]; [done|]. cbn. rewrite IH. done.
Qed.

Lemma to_json_request (a : @ndarray scalar) :
  to_json (estimator:=estimator)
          (ODict [("inputs",
                   OList [ODict [("name", OStr "predict");
                                 ("shape", shape_tuple a);
                                 ("datatype", OStr "FP32");
                                 ("data", tolist a)]])])
  = Some (request_body a).
Proof.
  unfold tolist, request_body, json_data.
  cbn -[shape_tuple tolist_from json_shape json_from].
  rewrite to_json_shape. cbn -[shape_tuple tolist_from json_shape json_from].
  by rewrite to_json_tolist.
Qed.

(** One row of numbers, when the buffer holds enough of them. *)
Lemma json_from_row n (buf : list scalar) :
  (n ≤ length buf)%nat → json_from [n] buf = JArray (JNumber <$> take n buf).
Proof.
  cbn [json_from size_of foldr]. intros Hn. f_equal.
  revert buf Hn. induction n as [|n IH]; intros buf Hn; [done|].
  destruct buf as [|x buf]; [cbn in Hn; lia|].
  cbn. f_equal. apply IH. cbn in Hn. lia.
Qed.

(** Parsing JSON and serialising the value again gives the JSON back. *)
Lemma to_json_of_json (j : @json scalar) :
  to_json (estimator:=estimator) (of_json j) = Some j.
Proof.
  revert j. fix IH 1. intros [| b | n | x | s | items | members]; cbn [of_json to_json]; try done.
  - assert (mapM (to_json (estimator:=estimator)) (of_json <$> items) = Some items) as ->;
      [|done].
    induction items as [|i items IHitems]; [done|].
    cbn. rewrite IH. cbn. rewrite IHitems. done.
  - assert (mapM (λ kv : string * pyobj, pair kv.1 <$> to_json (estimator:=estimator) kv.2)
                 ((λ kv : string * json, (kv.1, of_json kv.2)) <$> members)
            = Some members) as ->; [|done].
    induction members as [|[k v] members IHmembers]; [done|].
    cbn. rewrite IH. cbn. rewrite IHmembers. done.
Qed.

(** ** Running the notebook symbolically *)

Lemma wp_ret {A} (a : A) Q (st : @state scalar estimator) :
  Q st (Ok a) → wp (mret a) Q st.
Proof. done. Qed.

Lemma wp_raise {A} e (Q : state → result A → Prop) (st : @state scalar estimator) :
  Q st (Exc e) → wp (raise e) Q st.
Proof. done. Qed.

Lemma wp_bind {A B} (m : kernel A) (f : A → kernel B) Q (st : @state scalar estimator) :
  wp m (λ st' r, match r with Ok a => wp (f a) Q st' | Exc e => Q st' (Exc e) end) st →
  wp (m ≫= f) Q st.
Proof. unfold wp, mbind, kernel_bind. by destruct (m st) as [st' [a|e]]. Qed.

Lemma wp_lift {A} e (o : option A) Q (st : @state scalar estimator) :
  match o with Some a => Q st (Ok a) | None => Q st (Exc e) end → wp (lift e o) Q st.
Proof. by destruct o. Qed.

Lemma wp_load name Q (st : @state scalar estimator) :
  match namespace st !! name with
  | Some v => Q st (Ok v)
  | None => Q st (Exc (NameError name))
  end →
  wp (load name) Q st.
Proof. unfold wp, load. by destruct (namespace st !! name). Qed.

Lemma wp_store name v Q (st : @state scalar estimator) :
  Q (State (<[name := v]> (namespace st)) (log st)) (Ok ()) → wp (store name v) Q st.
Proof. done. Qed.

Lemma wp_perform {X} (c : call X) Q (st : @state scalar estimator) :
  (∀ r : reply X,
     Q (State (namespace st) (log st ++ [Entry c r]))
       (match r with Returns x => Ok x | Raises e => Exc e end)) →
  wp (perform w c) Q st.
Proof. intros H. apply H. Qed.

(** A property of the run of the whole notebook follows from its [wp]. *)
Lemma by_running (P : @state scalar estimator * result () → Prop) :
  wp (run_cells w (notebook w)) (λ st res, P (st, res)) fresh → P (run_all w).
Proof. unfold wp, run_all. by destruct (run_cells w (notebook w) fresh). Qed.

(** The cells of magics, as computations. *)
Lemma environment_cell_eq :
  exec_script w environment_source = perform w (writefile "environment.yml" environment_yml).
Proof. reflexivity. Qed.

Lemma conda_create_cell_eq :
  exec_script w conda_create_source =
  (shell_line w "conda env create --force -f environment.yml" ;;
   shell_line w "conda activate old-sklearn" ;; mret ()).
Proof. reflexivity. Qed.

Lemma conda_pack_cell_eq :
  exec_script w conda_pack_source =
  (shell_line w "conda pack --force -n old-sklearn -o old-sklearn.tar.gz" ;; mret ()).
Proof. reflexivity. Qed.

Lemma model_settings_cell_eq :
  exec_script w model_settings_source =
  perform w (writefile "model-settings.json" model_settings_json).
Proof. reflexivity. Qed.

Lemma empty_cell_eq : exec_script w empty_source = mret ().
Proof. reflexivity. Qed.

(** One step of the symbolic run. *)
Ltac wp_step :=
  lazymatch goal with
  | |- wp (mret _) _ _ => apply wp_ret
  | |- wp (raise _) _ _ => apply wp_raise
  | |- wp (_ ≫= _) _ _ => apply wp_bind
  | |- wp (store _ _) _ _ => apply wp_store
  | |- wp (load _) _ _ =>
      apply wp_load; cbn [namespace log];
      rewrite ?lookup_insert_ne by done; rewrite lookup_insert_eq
  | |- wp (perform w _) _ _ => apply wp_perform; cbn [namespace log]; intros [?|?]
  | |- wp (lift _ (to_json _)) _ _ => rewrite to_json_request; apply wp_lift; cbv iota
  | |- wp (lift _ (reshape_rows (Z.to_nat (Z.of_nat _)) _)) _ _ => rewrite Nat2Z.id
  | |- wp (lift _ ?o) _ _ => apply wp_lift; destruct o eqn:?
  | |- wp (displayhook w _) _ _ => unfold displayhook
  | |- wp (shell_line w _) _ _ => unfold shell_line
  | |- wp (imported _ _) _ _ => unfold imported
  | |- wp (exec_script w environment_source) _ _ => rewrite environment_cell_eq
  | |- wp (exec_script w conda_create_source) _ _ => rewrite conda_create_cell_eq
  | |- wp (exec_script w conda_pack_source) _ _ => rewrite conda_pack_cell_eq
  | |- wp (exec_script w model_settings_source) _ _ => rewrite model_settings_cell_eq
  | |- wp (exec_script w empty_source) _ _ => rewrite empty_cell_eq
  | |- wp (train_cell w) _ _ => unfold train_cell
  | |- wp (dump_cell w) _ _ => unfold dump_cell
  | |- wp (infer_cell w) _ _ => unfold infer_cell
  | |- wp (as_array _) _ _ => cbn [as_array]
  | |- wp (as_bunch _) _ _ => cbn [as_bunch]
  | |- wp (as_int _) _ _ => cbn [as_int]
  | |- wp (as_str _) _ _ => cbn [as_str]
  | |- wp (as_estimator _) _ _ => cbn [as_estimator]
  | |- wp (as_response _) _ _ => cbn [as_response]
  | |- wp (if String.eqb ?a ?b then _ else _) _ _ =>
      change (String.eqb a b) with true; cbv iota
  | |- wp (match ?p with (_, _) => _ end) _ _ => destruct p
  end.

(** The whole run: one goal for each way the run can end, with the final log
    spelled out. *)
Ltac run_notebook :=
  pattern (run_all w); apply by_running;
  unfold notebook; cbn [run_cells exec_cell];
  repeat wp_step;
  cbn [fresh log namespace app fst snd].

(** ** The claims about the run *)

(** Simplification of the observations on a spelled-out log. *)
Ltac read_log :=
  cbn [posts fits loaded dumped commands writes exceptions exception_of exit_status_of
       display_of omap last length mbind option_bind fmap option_fmap option_map
       list_omap list_fmap] in *.

(** C1: the notebook sends at most one HTTP request, always a POST to
    [http://localhost:8080/v2/models/mnist-svm/infer]; every shell command it
    runs is a [conda] command; and a run that completes has sent exactly one
    request and has ended by displaying the parsed JSON body of its
    response: the value displayed is the Python form of that body, and its
    JSON form is that body. *)
Theorem single_post_request :
  length (posts (log (run_all w).1)) ≤ 1 ∧
  (∀ p, p ∈ posts (log (run_all w).1) →
        p.1.1 = "http://localhost:8080/v2/models/mnist-svm/infer") ∧
  (∀ cmd, cmd ∈ commands (log (run_all w).1) → head (shell_words cmd) = Some "conda") ∧
  ((run_all w).2 = Ok () →
   ∃ payload r j v,
     posts (log (run_all w).1)
       = [("http://localhost:8080/v2/models/mnist-svm/infer", payload, Returns r)] ∧
     content r = Some j ∧
     (last (log (run_all w).1) ≫= display_of) = Some v ∧
     v = of_json j ∧
     to_json v = Some j).
Proof.
  run_notebook.
  all: read_log.
  all: split; [lia|split; [|split]].
  all: try (intros ? Hin; set_unfold in Hin; destruct_or?; subst; try done; reflexivity).
  all: try discriminate.
  intros _.
  match goal with
  | H : of_json <$> content ?r = Some _ |- _ =>
      destruct (content r) as [j|] eqn:Hj; [injection H as <-|done];
      eexists _, r, j, _;
      split; [reflexivity|split; [done|split; [reflexivity|split; [reflexivity|]]]];
      apply to_json_of_json
  end.
Qed.

(** C2: the body of every request the notebook sends is a JSON object with
    an [inputs] member that is an array, and every element of that array is
    an object whose keys are exactly [name], [shape], [datatype] and
    [data]. *)
Theorem request_body_members p :
  p ∈ posts (log (run_all w).1) →
  ∃ inputs,
    field "inputs" p.1.2 = Some (JArray inputs) ∧
    ∀ input, input ∈ inputs → keys_of input = Some ["name"; "shape"; "datatype"; "data"].
Proof.
  revert p. run_notebook.
  all: read_log.
  all: intros sent Hsent; set_unfold in Hsent; destruct_or?; subst; try done.
  all: eexists; split; [reflexivity|].
  all: intros input Hinput; set_unfold in Hinput; destruct_or?; subst; try done.
Qed.

(** C5: [fit] is called at most once, exactly once in a run that completes,
    and always on the first [n/2] rows (rounded down) of the flattened images
    and of the targets of the dataset that [load_digits] returned, [n] being
    its number of samples: the train part of
    [train_test_split(data, digits.target, test_size=0.5, shuffle=False)].
    The arrays that [fit] gets are spelled out: their buffers are the first
    [n/2] samples of the buffers of [digits.images] and [digits.target]. *)
Theorem fit_on_first_half :
  length (fits (log (run_all w).1)) ≤ 1 ∧
  ((run_all w).2 = Ok () → length (fits (log (run_all w).1)) = 1) ∧
  (∀ clf X y, (clf, X, y) ∈ fits (log (run_all w).1) →
     ∃ digits n data X_test y_test pixel_dims label_dims,
       loaded (log (run_all w).1) = [digits] ∧
       array_len (images digits) = Some n ∧
       reshape_rows n (images digits) = Some data ∧
       train_test_split data (target digits) (Qmake 1 2) = Some (X, X_test, y, y_test) ∧
       rows 0 (n `div` 2) data = Some X ∧
       rows 0 (n `div` 2) (target digits) = Some y ∧
       shape (images digits) = n :: pixel_dims ∧
       shape (target digits) = n :: label_dims ∧
       X = NDArray [n `div` 2; size_of pixel_dims]%nat
             (take (n `div` 2 * size_of pixel_dims)%nat (buffer (images digits))) ∧
       y = NDArray ((n `div` 2)%nat :: label_dims)
             (take (n `div` 2 * size_of label_dims)%nat (buffer (target digits)))).
Proof.
  run_notebook.
  all: read_log.
  all: split; [lia|split; [done|]].
  all: intros clf X y Hfit; set_unfold in Hfit; destruct_or?; try done.
  all: match goal with H : (_, _, _) = (_, _, _) |- _ => injection H as -> -> -> end.
  all: match goal with
       | H : train_test_split _ _ _ = Some _ |- _ =>
           destruct (train_test_split_half _ _ _ _ _ _ H) as (m & Hm & Hy & Ha & _ & Hc & _)
       end.
  all: match goal with
       | H : reshape_rows ?n _ = Some ?flat, Hm : array_len ?flat = Some ?m |- _ =>
           assert (m = n) as -> by
             (unfold reshape_rows in H; case_bool_decide; [injection H as <-|done];
              by injection Hm)
       end.
  all: match goal with
       | b : bunch |- _ =>
           exists b;
           destruct b as [[pixel_shape pixels] [label_shape labels]];
           cbn [images target shape buffer] in *
       end.
  all: destruct label_shape as [|? label_dims]; [discriminate Hy|injection Hy as ->].
  all: match goal with
       | H : array_len {| shape := ?s; buffer := _ |} = Some _ |- _ =>
           destruct s as [|? pixel_dims]; [discriminate H|injection H as ->]
       end.
  all: eexists _, _, _, _, pixel_dims, label_dims.
  all: repeat (split; [eassumption || reflexivity|]).
  all: match goal with
       | H : reshape_rows ?n _ = Some _ |- _ =>
           apply reshape_rows_samples in H as [Hn ->]; pose proof (half_lt n ltac:(lia))
       end.
  all: apply rows_shape in Ha as (? & ? & [= <- <-] & ->).
  all: apply rows_shape in Hc as (? & ? & [= <- <-] & ->).
  all: cbn [buffer size_of foldr].
  all: rewrite !Nat.min_0_l, !Nat.sub_0_r, !Nat.mul_0_l, !drop_0, !(Nat.min_l (_ `div` 2)) by lia.
  all: by rewrite Nat.mul_1_r.
Qed.

(** The first row of the test part of 8x8 images: row [n/2] of the dataset,
    as an array of shape (1, 64). *)
Lemma first_test_row n (buf : list scalar) tgt data X_train X_test y_train y_test x_0 :
  reshape_rows n (NDArray [n; 8; 8]%nat buf) = Some data →
  train_test_split data tgt (Qmake 1 2) = Some (X_train, X_test, y_train, y_test) →
  rows 0 1 X_test = Some x_0 →
  x_0 = NDArray [1; 64]%nat (take 64 (drop (n `div` 2 * 64)%nat buf)).
Proof.
  intros Hdata Hsplit Hx.
  apply reshape_rows_samples in Hdata as [Hn ->].
  apply train_test_split_half in Hsplit as (m & [= <-] & _ & _ & Htest & _).
  apply rows_shape in Htest as (? & ? & [= <- <-] & ->).
  apply rows_shape in Hx as (? & ? & [= <- <-] & ->).
  cbn [buffer size_of foldr].
  pose proof (half_lt n ltac:(lia)) as Hlt.
  change (Nat.divmod n 1 0 1).1 with (n `div` 2)%nat.
  generalize dependent (n `div` 2)%nat. intros h Hlt.
  match goal with
  | |- context [take (?a * _)%nat (drop (?b * _)%nat (take (?c * _)%nat (drop (?d * _)%nat _)))] =>
      replace a with 1%nat by lia; replace b with 0%nat by lia;
      replace c with (n - h)%nat by lia; replace d with h by lia
  end.
  change (8 * (8 * 1))%nat with 64%nat.
  rewrite Nat.mul_0_l, drop_0, !Nat.mul_1_l, Nat.mul_1_r, take_take.
  f_equal. f_equal. lia.
Qed.

(** The JSON form of an array of one row. *)
Lemma json_from_one_row k (row : list scalar) :
  length row = k → json_from [1; k]%nat row = JArray [JArray (JNumber <$> row)].
Proof.
  intros Hrow.
  transitivity (JArray [json_from [k] (take (size_of [k]) row)]); [reflexivity|].
  cbn [size_of foldr]. rewrite Nat.mul_1_r.
  rewrite json_from_row by (rewrite length_take; lia).
  rewrite take_take, Nat.min_id, firstn_all2 by lia. done.
Qed.

(** The request body for one row of 64 numbers. *)
Lemma request_body_row (row : list scalar) :
  length row = 64%nat →
  request_body (NDArray [1; 64]%nat row) =
  JObject [("inputs",
            JArray [JObject [("name", JString "predict");
                             ("shape", JArray [JInt 1; JInt 64]);
                             ("datatype", JString "FP32");
                             ("data", JArray [JArray (JNumber <$> row)])]])].
Proof.
  intros Hrow. unfold request_body, json_data, json_shape.
  cbn [shape buffer]. by rewrite json_from_one_row.
Qed.

(** C10: when [load_digits] returned [n] images of 8x8 pixels, the body of
    the request holds one input whose [data] is a list of one row of 64
    numbers, the pixels of image [n/2] (the first one of the test part), and
    whose [shape] is the pair of [len(data)] and [len(data[0])], that is
    (1, 64). *)
Theorem request_shape_matches_data digits n p :
  loaded (log (run_all w).1) = [digits] →
  shape (images digits) = [n; 8; 8]%nat →
  length (buffer (images digits)) = (n * 64)%nat →
  p ∈ posts (log (run_all w).1) →
  ∃ row,
    let data := [row] in
    row = take 64 (drop (n `div` 2 * 64)%nat (buffer (images digits))) ∧
    length data = 1%nat ∧ length row = 64%nat ∧
    p.1.2 =
      JObject [("inputs",
                JArray [JObject [("name", JString "predict");
                                 ("shape", JArray [JInt (Z.of_nat (length data));
                                                   JInt (Z.of_nat (length row))]);
                                 ("datatype", JString "FP32");
                                 ("data", JArray ((λ r, JArray (JNumber <$> r)) <$> data))]])].
Proof.
  revert digits n p. run_notebook.
  all: read_log.
  all: intros digits samples sent Hload Hshape Hlen Hsent.
  all: set_unfold in Hsent; destruct_or?; subst; try done.
  all: injection Hload as ->.
  all: destruct digits as [[dims buf] tgt]; cbn [images target shape buffer] in *; subst dims.
  all: match goal with H : array_len _ = Some _ |- _ => injection H as <- end.
  all: match goal with
       | H1 : reshape_rows _ _ = Some _, H2 : train_test_split _ _ _ = Some _,
         H3 : rows 0 1 _ = Some _ |- _ => rewrite (first_test_row _ _ _ _ _ _ _ _ _ H1 H2 H3)
       end.
  all: match goal with
       | H : reshape_rows _ _ = Some _ |- _ => apply reshape_rows_samples in H as [Hn _]
       end.
  all: pose proof (half_lt samples ltac:(lia)).
  all: assert (length (take 64 (drop (samples `div` 2 * 64)%nat buf)) = 64%nat)
         by (rewrite length_take, length_drop; nia).
  all: eexists; cbv zeta; split; [reflexivity|split; [done|split; [done|]]].
  all: match goal with H : length _ = 64%nat |- _ => rewrite H end.
  all: by apply request_body_row.
Qed.

(** The position [i] of a spelled-out list, one case per element. *)
Ltac each_position i H :=
  repeat (destruct i as [|i]; [injection H as <-|cbn [lookup list_lookup] in H]);
  try discriminate H.

(** C3, as the code has it: an exception raised by a call is not caught: it
    is the result of the run and the call is the last one of the log.  The
    exit status of a shell command is not an exception and is not looked at,
    nor is any other reply: the calls of a run are the calls written in the
    notebook, in their order, up to the end or to the exception that ends
    the run; after a shell command the call that is written next is made
    whatever the status; and after any call that returns, the call written
    next is made, unless the call is one of the three whose result the cell
    goes on to compute with ([load_digits], [SVC], [requests.post]) and the
    computation raises one of its own errors.  Nor is the HTTP status looked
    at: after a response, [response.json()] is displayed (the value shown
    has the body as its JSON form), or raises when the body is no JSON.  No
    command of the run launches a container. *)
Theorem exceptions_end_the_run_exit_statuses_do_not :
  (∀ e, e ∈ exceptions (log (run_all w).1) →
        (run_all w).2 = Exc e ∧ (last (log (run_all w).1) ≫= exception_of) = Some e) ∧
  (∃ k, label_of <$> log (run_all w).1 = take k scripted_calls) ∧
  ((run_all w).2 = Ok () → label_of <$> log (run_all w).1 = scripted_calls) ∧
  (∀ i en status,
     log (run_all w).1 !! i = Some en → exit_status_of en = Some status →
     ∃ next, log (run_all w).1 !! S i = Some next ∧
             scripted_calls !! S i = Some (label_of next)) ∧
  (∀ i en,
     log (run_all w).1 !! i = Some en → exception_of en = None →
     (S i < length scripted_calls)%nat →
     (∃ next, log (run_all w).1 !! S i = Some next ∧
              scripted_calls !! S i = Some (label_of next)) ∨
     (label_of en ∈ [LLoadDigits; LSVC; LPost endpoint_url] ∧
      ∃ e, (run_all w).2 = Exc e ∧ e ∈ data_errors)) ∧
  (∀ p r, p ∈ posts (log (run_all w).1) → p.2 = Returns r →
     match content r with
     | Some j => ∃ v, v ∈ omap display_of (log (run_all w).1) ∧
                      v = of_json j ∧ to_json v = Some j
     | None => (run_all w).2 = Exc (ValueError "Expecting value")
     end) ∧
  (∀ cmd, cmd ∈ commands (log (run_all w).1) → step_of_command cmd ≠ Some LaunchContainer).
Proof.
  run_notebook.
  (* [X_test] has a first axis, so that [X_test[0:1]] is defined *)
  all: try match goal with
           | H : train_test_split _ _ _ = Some _, H' : rows 0 1 _ = None |- _ =>
               exfalso;
               apply train_test_split_half in H as (m & _ & _ & _ & Htest & _);
               apply rows_shape in Htest as (? & ? & _ & ->); discriminate H'
           end.
  all: split; [|split; [|split; [|split; [|split; [|split]]]]].
  all: try (intros e He; read_log; set_unfold in He; destruct_or?; subst; done).
  all: try (match goal with
            | |- ∃ k, ?l = _ => exists (length l); reflexivity
            end).
  all: try (intros Hok; first [discriminate Hok|reflexivity]).
  all: try (intros i en status Hi Hs; each_position i Hi;
            first [discriminate Hs|by eexists]).
  all: try (intros i en Hi He Hlast; each_position i Hi;
            first [discriminate He
                  |cbn [length scripted_calls] in Hlast; lia
                  |left; by eexists
                  |right; split; [set_solver|eexists; split; [reflexivity|]];
                   unfold data_errors; set_solver]).
  all: try (intros cmd Hcmd; read_log; set_unfold in Hcmd; destruct_or?; subst; done).
  all: intros sent r Hsent Hr; read_log; set_unfold in Hsent; destruct_or?; subst; try done.
  all: cbn [snd] in Hr; try discriminate Hr; injection Hr as <-.
  all: match goal with
       | H : of_json <$> content ?r = _ |- _ =>
           destruct (content r) as [j|]; cbn [fmap option_fmap option_map] in H;
           try discriminate H; try done
       end.
  all: match goal with H : Some _ = Some _ |- _ => injection H as <- end.
  all: exists (of_json j); split; [set_solver|split; [done|apply to_json_of_json]].
Qed.

(** C4, as the code has it: the steps a run goes through are, in this order,
    1 (environment descriptor), 2 (environment manager), 3 (training),
    4 (serialisation), 5 (packaging) and 7 (HTTP request), all six of them in
    a run that completes, the first ones of them in a run that an exception
    ends; what step 4 serialises is the estimator that step 3 fitted.  Step 6
    is no part of the run: the [docker run] command is text of the markdown
    cell 12, which lies between the packaging cell (9) and the request cell
    (14) and which, like every markdown cell, runs nothing. *)
Theorem steps_in_order_without_container_launch :
  (∃ k, steps_performed (log (run_all w).1) = take k [1; 2; 3; 4; 5; 7]) ∧
  ((run_all w).2 = Ok () → steps_performed (log (run_all w).1) = [1; 2; 3; 4; 5; 7]) ∧
  ((run_all w).2 = Ok () →
   ∃ clf X y, fits (log (run_all w).1) = [(clf, X, y)] ∧
              dumped (log (run_all w).1) = [(clf, "model.joblib")]) ∧
  notebook w !! 9%nat = Some (Script conda_pack_source) ∧
  notebook w !! 12%nat = Some (Markdown docker_markdown) ∧
  notebook w !! 14%nat = Some (Python infer_source (infer_cell w)) ∧
  (docker_line ≫= step_of_command) = Some LaunchContainer ∧
  exec_cell w (Markdown docker_markdown) = mret ().
Proof.
  run_notebook.
  all: split; [|split; [|split; [|done]]].
  all: try done.
  all: try (intros _; by eexists _, _, _).
  all: first [by exists 6%nat|by exists 5%nat|by exists 4%nat|by exists 3%nat
             |by exists 2%nat|by exists 1%nat|by exists 0%nat].
Qed.

(** C7: the file the notebook writes as [environment.yml] has the top-level
    keys [name] and [dependencies] and no other; [name] holds a scalar and
    [dependencies] a block of list items that takes all the other lines. *)
Theorem environment_descriptor_keys text :
  ("environment.yml", text) ∈ writes (log (run_all w).1) →
  text = environment_yml ∧
  (yaml_top_level text).*1 = ["name"; "dependencies"] ∧
  assoc "name" (yaml_top_level text) = Some "old-sklearn" ∧
  assoc "dependencies" (yaml_top_level text) = Some EmptyString ∧
  forallb is_list_item (yaml_block "dependencies" false text) = true ∧
  length (yaml_block "dependencies" false text) + 3 = length text.
Proof.
  revert text. run_notebook.
  all: read_log.
  all: intros text Htext; set_unfold in Htext; destruct_or?; try done.
  all: match goal with H : (_, _) = (_, _) |- _ => injection H as -> end.
  all: by vm_compute.
Qed.

(** C8: the [name] of the [model-settings.json] the notebook writes is
    [mnist-svm], and so is the model segment of the URL of every request it
    sends. *)
Theorem model_name_matches_endpoint text p :
  ("model-settings.json", text) ∈ writes (log (run_all w).1) →
  p ∈ posts (log (run_all w).1) →
  (json_flat_object text ≫= assoc "name") = url_model_name p.1.1 ∧
  url_model_name p.1.1 = Some "mnist-svm" ∧
  url_host p.1.1 = Some "localhost:8080".
Proof.
  revert text p. run_notebook.
  all: read_log.
  all: intros text sent Htext Hsent.
  all: set_unfold in Hsent; destruct_or?; subst; try done.
  all: set_unfold in Htext; destruct_or?; try done.
  all: match goal with H : (_, _) = (_, _) |- _ => injection H as -> end.
  all: by vm_compute.
Qed.
(** ** Single cells, from any namespace *)

(** A property of a computation from a state follows from its [wp]. *)
Lemma by_wp {A} (m : kernel A) (st : @state scalar estimator) (P : state * result A → Prop) :
  wp m (λ st' r, P (st', r)) st → P (m st).
Proof. unfold wp. by destruct (m st). Qed.

(** One step of a symbolic run whose namespace extends one described by the
    hypotheses on [namespace _ !! _]. *)
Ltac wp_step_from :=
  lazymatch goal with
  | |- wp (load _) _ _ =>
      apply wp_load; cbn [namespace log];
      rewrite ?lookup_insert_ne by done;
      first [rewrite lookup_insert_eq
            |match goal with H : _ !! _ = _ |- _ => rewrite H end]
  | _ => wp_step
  end.

Ltac run_cell :=
  apply by_wp; unfold exec_cell;
  repeat wp_step_from;
  cbn [log namespace app fst snd].

(** X1: the request cell run in a kernel where [X_test] is not bound (before
    the training cell) sends no request: it ends with [NameError] on
    [X_test], or with the exception that [import requests] raised. *)
Theorem request_cell_needs_training ns :
  ns !! "X_test" = None →
  posts (log (infer_cell w (State ns [])).1) = [] ∧
  ((infer_cell w (State ns [])).2 = Exc (NameError "X_test") ∨
   ∃ e, (infer_cell w (State ns [])).2 = Exc e ∧
        exceptions (log (infer_cell w (State ns [])).1) = [e]).
Proof.
  intros Hns. pattern (infer_cell w (State ns [])). run_cell.
  all: split; [done|]; by eauto.
Qed.

(** X2: the serialisation cell run in a kernel where [classifier] is not
    bound writes no model: [joblib.dump] is not called, and the cell ends
    with [NameError] on [classifier] or with the exception that
    [import joblib] raised. *)
Theorem dump_cell_needs_classifier ns :
  ns !! "classifier" = None →
  dumped (log (dump_cell w (State ns [])).1) = [] ∧
  ((dump_cell w (State ns [])).2 = Exc (NameError "classifier") ∨
   ∃ e, (dump_cell w (State ns [])).2 = Exc e ∧
        exceptions (log (dump_cell w (State ns [])).1) = [e]).
Proof.
  intros Hns. pattern (dump_cell w (State ns [])). run_cell.
  all: split; [done|]; by eauto.
Qed.

(** The names the Python cells bind, spelled out. *)
Lemma assigned_names_eq :
  assigned_names
  = [ "datasets"; "svm"; "metrics"; "train_test_split"; "digits"; "n_samples"; "data";
      "classifier"; "X_train"; "X_test"; "y_train"; "y_test"; "joblib"; "model_file_name";
      "requests"; "x_0"; "inference_request"; "endpoint"; "response" ].
Proof. reflexivity. Qed.

(** A run binds no other name than these and [_exit_code]. *)
Lemma run_binds_assigned_names name :
  name ∉ "_exit_code" :: assigned_names → namespace (run_all w).1 !! name = None.
Proof.
  rewrite assigned_names_eq. intros Hname.
  assert (Forall (λ bound, bound ≠ name)
            ("_exit_code" :: [ "datasets"; "svm"; "metrics"; "train_test_split"; "digits";
                               "n_samples"; "data"; "classifier"; "X_train"; "X_test";
                               "y_train"; "y_test"; "joblib"; "model_file_name"; "requests";
                               "x_0"; "inference_request"; "endpoint"; "response" ]))
    as Hne by (apply Forall_forall; intros bound Hbound ->; done).
  clear Hname. repeat (apply Forall_cons in Hne as [? Hne]). clear Hne.
  run_notebook.
  all: rewrite ?lookup_insert_ne by assumption.
  all: apply lookup_empty.
Qed.

(** X5: the cell of the two [conda] commands leaves in [_exit_code] the
    status of the second one only, whatever [conda env create] returned, it
    leaves every name that the cells of the notebook bind as it was, and it
    ends without exception.  (The variables that IPython itself keeps for
    each cell, as [_i] and [_ii], are no part of the namespace modelled
    here, and the property says nothing of them.) *)
Theorem exit_code_keeps_last_status ns s1 s2 :
  exit_status_of <$> log (exec_cell w (Script conda_create_source) (State ns [])).1
    = [Some s1; Some s2] →
  namespace (exec_cell w (Script conda_create_source) (State ns [])).1 !! "_exit_code"
    = Some (OInt s2) ∧
  (∀ name, name ∈ assigned_names →
     namespace (exec_cell w (Script conda_create_source) (State ns [])).1 !! name
     = ns !! name) ∧
  (exec_cell w (Script conda_create_source) (State ns [])).2 = Ok ().
Proof.
  pattern (exec_cell w (Script conda_create_source) (State ns [])). run_cell.
  all: cbn [fmap list_fmap exit_status_of]; intros [= ]; subst.
  split; [apply lookup_insert_eq|split; [|done]].
  intros name Hname.
  assert ("_exit_code" ≠ name) by
    (intros <-; rewrite assigned_names_eq in Hname; set_unfold in Hname; by destruct_or?).
  by rewrite !lookup_insert_ne.
Qed.

(** X8: what the request cell sends depends on [X_test] alone: in a kernel
    where [X_test] is the array [a], whatever else is bound, the cell sends
    at most one request, to the endpoint, with the body made of [a[0:1]], and
    it leaves [X_test] as it was. *)
Theorem request_depends_on_X_test_only ns a :
  ns !! "X_test" = Some (OArray a) →
  namespace (infer_cell w (State ns [])).1 !! "X_test" = Some (OArray a) ∧
  length (posts (log (infer_cell w (State ns [])).1)) ≤ 1 ∧
  ∀ p, p ∈ posts (log (infer_cell w (State ns [])).1) →
       ∃ x_0, rows 0 1 a = Some x_0 ∧ p.1 = (endpoint_url, request_body x_0).
Proof.
  intros Hns. pattern (infer_cell w (State ns [])). run_cell.
  all: split; [by rewrite ?lookup_insert_ne by done|].
  all: read_log; split; [lia|].
  all: intros sent Hsent; set_unfold in Hsent; destruct_or?; subst; try done.
  all: by eexists.
Qed.

(** ** More about the whole run *)

(** X3: what [joblib.dump] serialises, to [model.joblib], is always the
    estimator that [fit] was called on, after that call returned: a model is
    never written before it is fitted, nor when fitting raised. *)
Theorem dumped_model_is_fitted clf file :
  (clf, file) ∈ dumped (log (run_all w).1) →
  file = "model.joblib" ∧
  ∃ X y, fits (log (run_all w).1) = [(clf, X, y)] ∧
         Entry (fit clf X y) (Returns ()) ∈ log (run_all w).1.
Proof.
  revert clf file. run_notebook.
  all: intros clf file Hin; read_log; set_unfold in Hin; destruct_or?; try done.
  all: match goal with H : (_, _) = (_, _) |- _ => injection H as -> -> end.
  all: split; [done|]; eexists _, _; split; [reflexivity|].
  all: apply list_elem_of_lookup_2 with 7%nat; cbn [lookup list_lookup].
  all: by match goal with |- Some (Entry _ (Returns ?u)) = _ => destruct u end.
Qed.

(** X4: the sample the request carries was held out of training.  With [n]
    images of 8x8 pixels, [fit] gets the rows before row [n/2] and the
    request carries row [n/2], the one right after them. *)
Theorem request_sample_is_held_out digits n clf X y p :
  loaded (log (run_all w).1) = [digits] →
  shape (images digits) = [n; 8; 8]%nat →
  length (buffer (images digits)) = (n * 64)%nat →
  (clf, X, y) ∈ fits (log (run_all w).1) →
  p ∈ posts (log (run_all w).1) →
  ∃ row,
    shape X = [n `div` 2; 64]%nat ∧
    p.1.2 = request_body (NDArray [1; 64]%nat row) ∧
    buffer X ++ row = take ((n `div` 2 + 1) * 64)%nat (buffer (images digits)).
Proof.
  revert digits n clf X y p. run_notebook.
  all: read_log.
  all: intros digits samples clf X y sent Hload Hshape Hlen Hfit Hsent.
  all: set_unfold in Hsent; destruct_or?; subst; try done.
  all: set_unfold in Hfit; destruct_or?; try done.
  all: match goal with H : (_, _, _) = (_, _, _) |- _ => injection H as -> -> -> end.
  all: injection Hload as ->.
  all: destruct digits as [[dims buf] tgt]; cbn [images target shape buffer] in *; subst dims.
  all: match goal with H : array_len _ = Some _ |- _ => injection H as <- end.
  all: match goal with
       | H1 : reshape_rows _ _ = Some _, H2 : train_test_split _ _ _ = Some _,
         H3 : rows 0 1 _ = Some _ |- _ =>
           rewrite (first_test_row _ _ _ _ _ _ _ _ _ H1 H2 H3);
           apply reshape_rows_samples in H1 as [Hn ->];
           apply train_test_split_half in H2 as (m & [= <-] & _ & Htrain & _)
       end.
  all: apply rows_shape in Htrain as (? & ? & [= <- <-] & ->).
  all: pose proof (half_lt samples ltac:(lia)).
  all: eexists; cbn [shape buffer size_of foldr fst snd].
  all: change (Nat.divmod samples 1 0 1).1 with (samples `div` 2)%nat.
  all: rewrite Nat.min_0_l, Nat.sub_0_r, Nat.mul_0_l, drop_0, (Nat.min_l _ samples) by lia.
  all: change (8 * (8 * 1))%nat with 64%nat.
  all: split; [done|split; [done|]].
  all: by rewrite take_take_drop, Nat.mul_add_distr_r.
Qed.

(** X6: run from top to bottom, the notebook reads no variable before it is
    bound and applies no operation to a value of the wrong type: when the run
    ends with an exception, either a call to the outside raised it or it is
    one of the errors of the array and JSON operations. *)
Theorem run_is_self_contained e :
  (run_all w).2 = Exc e →
  e ∈ exceptions (log (run_all w).1) ∨ e ∈ data_errors.
Proof.
  revert e. run_notebook.
  all: intros e' [= <-]; read_log.
  all: first [left; set_solver|right; unfold data_errors; set_solver|idtac].
  (* [X_test] has a first axis, so that [X_test[0:1]] is defined *)
  all: match goal with
       | H : train_test_split _ _ _ = Some _, H' : rows 0 1 _ = None |- _ =>
           apply train_test_split_half in H as (m & _ & _ & _ & Htest & _);
           apply rows_shape in Htest as (? & ? & _ & ->); discriminate H'
       end.
Qed.

(** X7: with a dataset of no sample the run ends at the reshape with
    [ValueError], before a classifier is built: nothing is fitted, written by
    [joblib] or packed, and no request is sent. *)
Theorem empty_dataset_stops_the_run digits :
  loaded (log (run_all w).1) = [digits] →
  array_len (images digits) = Some 0%nat →
  (run_all w).2 = Exc (ValueError "cannot reshape array") ∧
  fits (log (run_all w).1) = [] ∧
  dumped (log (run_all w).1) = [] ∧
  posts (log (run_all w).1) = [] ∧
  commands (log (run_all w).1)
    = ["conda env create --force -f environment.yml"; "conda activate old-sklearn"].
Proof.
  revert digits. run_notebook.
  all: read_log; intros digits Hload Hlen; try discriminate Hload.
  all: injection Hload as ->.
  all: match goal with
       | H : array_len _ = _ |- _ =>
           tryif constr_eq H Hlen then fail else rewrite Hlen in H
       end.
  all: try match goal with H : Some 0%nat = None |- _ => discriminate H end.
  all: match goal with H : Some 0%nat = Some _ |- _ => injection H as <- end.
  all: try match goal with
       | H : reshape_rows 0 _ = Some _ |- _ =>
           unfold reshape_rows in H;
           rewrite bool_decide_false in H by (by intros [? _]); discriminate H
       end.
  all: done.
Qed.

End Properties.

(** ** The claims about the text of the cells *)

(** C6: the Docker command mounts the working directory, the example's
    folder, at [/mnt/models], and sets [MLSERVER_ENV_TARBALL] to the path
    that the file written by [conda pack -o] (a path relative to that folder)
    has inside the container. *)
Theorem docker_mounts_folder_and_names_tarball :
  ∃ volume tarball,
    docker_command !! 0%nat = Some "docker" ∧
    docker_command !! 1%nat = Some "run" ∧
    docker_volume = Some volume ∧
    volume = ("$PWD", "/mnt/models") ∧
    option_value "-o" conda_pack = Some tarball ∧
    tarball = "old-sklearn.tar.gz" ∧
    docker_env = Some ("MLSERVER_ENV_TARBALL", in_container volume tarball).
Proof. by exists ("$PWD", "/mnt/models"), "old-sklearn.tar.gz". Qed.

(** C9: the [name] of [environment.yml] is the argument of [conda activate]
    and of [conda pack -n], and the file name given to [conda pack -o] is the
    base name of the path in [MLSERVER_ENV_TARBALL]. *)
Theorem environment_name_is_consistent :
  ∃ name tarball value,
    name = "old-sklearn" ∧
    tarball = "old-sklearn.tar.gz" ∧
    assoc "name" (yaml_top_level environment_yml) = Some name ∧
    conda_activate = ["conda"; "activate"; name] ∧
    option_value "-n" conda_pack = Some name ∧
    option_value "-o" conda_pack = Some tarball ∧
    docker_env = Some ("MLSERVER_ENV_TARBALL", value) ∧
    basename value = tarball.
Proof. by exists "old-sklearn", "old-sklearn.tar.gz", "/mnt/models/old-sklearn.tar.gz". Qed.

(** ** The claims about the run, in the sample world *)

Lemma sample_request_sent : sample_request ∈ posts (log (run_all (sample_world 0)).1).
Proof. apply list_elem_of_lookup_2 with 0%nat. by vm_compute. Qed.

(** C1 in the sample world: the run completes with one request, the one of
    [sample_request], and ends by displaying the dict [{"model_name":
    "mnist-svm"}], whose JSON form is the body of the response. *)
Lemma single_post_request_witness :
  (run_all (sample_world 0)).2 = Ok () ∧
  posts (log (run_all (sample_world 0)).1) = [sample_request] ∧
  (last (log (run_all (sample_world 0)).1) ≫= display_of)
    = Some (ODict [("model_name", OStr "mnist-svm")]) ∧
  to_json (estimator:=nat) (ODict [("model_name", OStr "mnist-svm")])
    = content sample_response.
Proof.
  split; [by vm_compute|].
  destruct (single_post_request (sample_world 0)) as (_ & _ & _ & Hrun).
  destruct Hrun as (payload & r & j & v & Hposts & Hj & Hlast & Hv & Hjson);
    [by vm_compute|].
  assert (r = sample_response) as ->
    by (vm_compute in Hposts; injection Hposts as _ <-; reflexivity).
  injection Hj as <-. subst v.
  split; [by vm_compute|]. split; [exact Hlast|exact Hjson].
Defined.

(** C2 in the sample world. *)
Lemma request_body_members_witness :
  sample_request ∈ posts (log (run_all (sample_world 0)).1) ∧
  ∃ inputs,
    field "inputs" sample_request.1.2 = Some (JArray inputs) ∧
    ∀ input, input ∈ inputs → keys_of input = Some ["name"; "shape"; "datatype"; "data"].
Proof.
  split; [apply sample_request_sent|].
  apply (request_body_members (sample_world 0) sample_request), sample_request_sent.
Defined.

(** C3: with [conda] commands that exit with status 1 the run completes
    without an exception: the failure of environment creation does not reach
    the caller. *)
Lemma exit_status_does_not_propagate : ¬ failures_propagate (run_all (sample_world 1)).
Proof.
  intros Hall.
  destruct (Hall (Entry (system "conda env create --force -f environment.yml") (Returns 1%Z)))
    as [e He].
  - apply list_elem_of_lookup_2 with 1%nat. by vm_compute.
  - reflexivity.
  - vm_compute in He. discriminate He.
Qed.

(** C3 as amended, in that world: environment creation exits with 1, the
    call made next is the one written next, [conda activate], and the run
    goes through all the calls of the notebook. *)
Lemma exit_status_witness :
  log (run_all (sample_world 1)).1 !! 1%nat
    = Some (Entry (system "conda env create --force -f environment.yml") (Returns 1%Z)) ∧
  scripted_calls !! 2%nat = Some (LSystem "conda activate old-sklearn") ∧
  (∃ next, log (run_all (sample_world 1)).1 !! 2%nat = Some next ∧
           scripted_calls !! 2%nat = Some (label_of next)) ∧
  label_of <$> log (run_all (sample_world 1)).1 = scripted_calls.
Proof.
  destruct (exceptions_end_the_run_exit_statuses_do_not (sample_world 1))
    as (_ & _ & Hall & Hnext & _).
  split; [by vm_compute|]. split; [reflexivity|]. split.
  - apply Hnext with
      (Entry (system "conda env create --force -f environment.yml") (Returns 1%Z)) 1%Z;
      by vm_compute.
  - apply Hall. by vm_compute.
Defined.

(** C4: the run in the sample world completes and goes through six steps;
    the container launch is not among them. *)
Lemma container_launch_is_not_performed :
  (run_all (sample_world 0)).2 = Ok () ∧
  steps_performed (log (run_all (sample_world 0)).1) ≠ [1; 2; 3; 4; 5; 6; 7].
Proof. split; [by vm_compute|]. intros H. vm_compute in H. discriminate H. Qed.

(** C4 as amended, in the sample world. *)
Lemma steps_in_order_witness :
  (run_all (sample_world 0)).2 = Ok () ∧
  steps_performed (log (run_all (sample_world 0)).1) = [1; 2; 3; 4; 5; 7].
Proof.
  split; [by vm_compute|].
  apply (steps_in_order_without_container_launch (sample_world 0)). by vm_compute.
Defined.

(** C5 in the sample world: [fit] on the first two of the four samples, the
    pixels 0 to 127 and the targets 0 and 1. *)
Lemma fit_on_first_half_witness :
  fits (log (run_all (sample_world 0)).1)
    = [(7%nat, NDArray [2; 64]%nat (Z.of_nat <$> seq 0 128), NDArray [2%nat] [0; 1]%Z)] ∧
  loaded (log (run_all (sample_world 0)).1) = [sample_digits] ∧
  NDArray [2; 64]%nat (Z.of_nat <$> seq 0 128)
    = NDArray [4 `div` 2; size_of [8; 8]]%nat
        (take (4 `div` 2 * size_of [8; 8])%nat (buffer (images sample_digits))) ∧
  ∃ digits n data X_test y_test pixel_dims label_dims,
    loaded (log (run_all (sample_world 0)).1) = [digits] ∧
    array_len (images digits) = Some n ∧
    reshape_rows n (images digits) = Some data ∧
    train_test_split data (target digits) (Qmake 1 2)
      = Some (NDArray [2; 64]%nat (Z.of_nat <$> seq 0 128), X_test,
              NDArray [2%nat] [0; 1]%Z, y_test) ∧
    rows 0 (n `div` 2) data = Some (NDArray [2; 64]%nat (Z.of_nat <$> seq 0 128)) ∧
    rows 0 (n `div` 2) (target digits) = Some (NDArray [2%nat] [0; 1]%Z) ∧
    shape (images digits) = n :: pixel_dims ∧
    shape (target digits) = n :: label_dims ∧
    NDArray [2; 64]%nat (Z.of_nat <$> seq 0 128)
      = NDArray [n `div` 2; size_of pixel_dims]%nat
          (take (n `div` 2 * size_of pixel_dims)%nat (buffer (images digits))) ∧
    NDArray [2%nat] [0; 1]%Z
      = NDArray ((n `div` 2)%nat :: label_dims)
          (take (n `div` 2 * size_of label_dims)%nat (buffer (target digits))).
Proof.
  split; [by vm_compute|]. split; [by vm_compute|]. split; [by vm_compute|].
  destruct (fit_on_first_half (sample_world 0)) as (_ & _ & Hfit).
  apply (Hfit 7%nat).
  apply list_elem_of_lookup_2 with 0%nat. by vm_compute.
Defined.

(** C7 in the sample world. *)
Lemma environment_descriptor_keys_witness :
  ("environment.yml", environment_yml) ∈ writes (log (run_all (sample_world 0)).1) ∧
  (yaml_top_level environment_yml).*1 = ["name"; "dependencies"].
Proof.
  assert (("environment.yml", environment_yml) ∈ writes (log (run_all (sample_world 0)).1))
    as Hin by (apply list_elem_of_lookup_2 with 0%nat; by vm_compute).
  split; [exact Hin|].
  apply (environment_descriptor_keys (sample_world 0) environment_yml Hin).
Defined.

(** C8 in the sample world. *)
Lemma model_name_matches_endpoint_witness :
  ("model-settings.json", model_settings_json) ∈ writes (log (run_all (sample_world 0)).1) ∧
  (json_flat_object model_settings_json ≫= assoc "name") = url_model_name sample_request.1.1.
Proof.
  assert (("model-settings.json", model_settings_json)
          ∈ writes (log (run_all (sample_world 0)).1))
    as Hin by (apply list_elem_of_lookup_2 with 1%nat; by vm_compute).
  split; [exact Hin|].
  apply (model_name_matches_endpoint (sample_world 0) _ sample_request Hin sample_request_sent).
Defined.

(** C10 in the sample world: four images, the request carries image 2. *)
Lemma request_shape_matches_data_witness :
  ∃ row,
    row = take 64 (drop 128 sample_pixels) ∧ length row = 64%nat ∧
    sample_request.1.2 =
      JObject [("inputs",
                JArray [JObject [("name", JString "predict");
                                 ("shape", JArray [JInt 1; JInt 64]);
                                 ("datatype", JString "FP32");
                                 ("data", JArray [JArray (JNumber <$> row)])]])].
Proof.
  destruct (request_shape_matches_data (sample_world 0) sample_digits 4 sample_request)
    as (row & Hrow & _ & Hlen & Hbody);
    [by vm_compute|reflexivity|by vm_compute|apply sample_request_sent|].
  exists row. rewrite Hlen in Hbody. done.
Defined.

(** ** More about the text of the cells *)

(** X9: the request goes to the port of the local machine that the Docker
    command publishes. *)
Theorem request_port_is_published :
  ∃ port container_port,
    docker_ports = Some (port, container_port) ∧
    url_hostname endpoint_url = Some "localhost" ∧
    url_port endpoint_url = Some port.
Proof. by exists "8080", "8080". Qed.

(** X10: the image that the Docker command runs has the version of MLServer
    that [environment.yml] pins, for [mlserver] and for [mlserver-sklearn]. *)
Theorem image_tag_is_pinned_version :
  ∃ version,
    docker_image = Some ("seldonio/mlserver", version) ∧
    assoc "mlserver" requirements = Some version ∧
    assoc "mlserver-sklearn" requirements = Some version.
Proof. by exists "0.6.0.dev0". Qed.

(** ** The other properties, in the sample worlds *)

(** X1 in a fresh kernel. *)
Lemma request_cell_needs_training_witness :
  posts (log (infer_cell (sample_world 0) (State ∅ [])).1) = [] ∧
  (infer_cell (sample_world 0) (State ∅ [])).2 = Exc (NameError "X_test").
Proof.
  destruct (request_cell_needs_training (sample_world 0) ∅ (lookup_empty _)) as [Hposts _].
  split; [exact Hposts|by vm_compute].
Defined.

(** X2 in a fresh kernel. *)
Lemma dump_cell_needs_classifier_witness :
  dumped (log (dump_cell (sample_world 0) (State ∅ [])).1) = [] ∧
  (dump_cell (sample_world 0) (State ∅ [])).2 = Exc (NameError "classifier").
Proof.
  destruct (dump_cell_needs_classifier (sample_world 0) ∅ (lookup_empty _)) as [Hdumped _].
  split; [exact Hdumped|by vm_compute].
Defined.

(** X3 in the sample world. *)
Lemma dumped_model_is_fitted_witness :
  (7%nat, "model.joblib") ∈ dumped (log (run_all (sample_world 0)).1) ∧
  ∃ X y, fits (log (run_all (sample_world 0)).1) = [(7%nat, X, y)] ∧
         Entry (fit 7%nat X y) (Returns ()) ∈ log (run_all (sample_world 0)).1.
Proof.
  assert ((7%nat, "model.joblib") ∈ dumped (log (run_all (sample_world 0)).1)) as Hin
    by (apply list_elem_of_lookup_2 with 0%nat; by vm_compute).
  split; [exact Hin|].
  apply (dumped_model_is_fitted (sample_world 0) _ _ Hin).
Defined.

(** X4 in the sample world: training on images 0 and 1, request with
    image 2. *)
Lemma request_sample_is_held_out_witness :
  ∃ X row,
    shape X = [2; 64]%nat ∧
    sample_request.1.2 = request_body (NDArray [1; 64]%nat row) ∧
    buffer X ++ row = take 192 sample_pixels.
Proof.
  exists (NDArray [2; 64]%nat (take 128 sample_pixels)).
  apply (request_sample_is_held_out (sample_world 0) sample_digits 4 7%nat
           (NDArray [2; 64]%nat (take 128 sample_pixels)) (NDArray [2%nat] [0; 1]%Z)
           sample_request);
    [by vm_compute|reflexivity|by vm_compute| |apply sample_request_sent].
  apply list_elem_of_lookup_2 with 0%nat. by vm_compute.
Defined.

(** X5 in a world where [conda env create] exits with 1 and [conda activate]
    with 0, from a kernel that binds [X_test]: [_exit_code] is 0 and
    [X_test] is as it was. *)
Lemma exit_code_keeps_last_status_witness :
  exit_status_of
    <$> log (exec_cell create_fails_world (Script conda_create_source)
               (State {["X_test" := ONone]} [])).1
    = [Some 1%Z; Some 0%Z] ∧
  namespace (exec_cell create_fails_world (Script conda_create_source)
               (State {["X_test" := ONone]} [])).1 !! "_exit_code"
    = Some (OInt 0) ∧
  namespace (exec_cell create_fails_world (Script conda_create_source)
               (State {["X_test" := ONone]} [])).1 !! "X_test"
    = Some ONone.
Proof.
  split; [by vm_compute|].
  destruct (exit_code_keeps_last_status create_fails_world {["X_test" := ONone]} 1%Z 0%Z)
    as (Hcode & Hframe & _); [by vm_compute|].
  split; [exact Hcode|].
  rewrite (Hframe "X_test"); [by vm_compute|].
  apply list_elem_of_lookup_2 with 9%nat. reflexivity.
Defined.

(** X6 and X7 in the world of the empty dataset. *)
Lemma run_is_self_contained_witness :
  (run_all empty_world).2 = Exc (ValueError "cannot reshape array") ∧
  (ValueError "cannot reshape array" ∈ exceptions (log (run_all empty_world).1) ∨
   ValueError "cannot reshape array" ∈ data_errors).
Proof.
  assert ((run_all empty_world).2 = Exc (ValueError "cannot reshape array")) as Hrun
    by (by vm_compute).
  split; [exact Hrun|]. apply (run_is_self_contained empty_world _ Hrun).
Defined.

Lemma empty_dataset_stops_the_run_witness :
  loaded (log (run_all empty_world).1) = [empty_digits] ∧
  fits (log (run_all empty_world).1) = [] ∧
  posts (log (run_all empty_world).1) = [].
Proof.
  assert (loaded (log (run_all empty_world).1) = [empty_digits]) as Hload by (by vm_compute).
  split; [exact Hload|].
  destruct (empty_dataset_stops_the_run empty_world empty_digits Hload eq_refl)
    as (_ & Hfits & _ & Hposts & _).
  by split.
Defined.

(** X8 in a kernel that only binds [X_test], to two rows of 64 numbers. *)
Lemma request_depends_on_X_test_only_witness :
  length (posts (log (infer_cell (sample_world 0)
                        (State {["X_test" := OArray (NDArray [2; 64]%nat (take 128 sample_pixels))]}
                               [])).1)) ≤ 1.
Proof.
  apply (request_depends_on_X_test_only (sample_world 0) _
           (NDArray [2; 64]%nat (take 128 sample_pixels))).
  by vm_compute.
Defined.
